(** * bilby_pipe: the job-graph compiler of [bilby_pipe/main.py]

    A shallow embedding of the classes [Input] and [Dag] of
    [src/bilby_pipe/main.py], and the properties of the job expansion,
    job compilation and graph assembly that the design document states.

    Python values are modelled as follows.
    - [str] is [string], a sequence of code points below 256. [upper]
      is [str.upper] on ASCII strings; the properties that give a value
      of [upper] are about ASCII strings: they assume so, or they are
      about tokens that uppercase to a known detector, which are ASCII.
    - A value whose Python type is not fixed by the code is a [pyobj].
    - An exception is a value of [exn]; a computation that may raise
      returns a [result].
    - The objects that are shared and mutated ([pycondor.Job] nodes held
      by both the [Dagman] and the [Dag]) live in an object store and are
      named by their index in it. *)

From Stdlib Require Import ZArith Ascii DecimalString.
From stdpp Require Import base list strings gmap sorting.

(** ** Python primitives *)

Module Py.

(** A Python object of one of the types the command line can produce. *)
Inductive pyobj :=
| PyNone
| PyBool (b : bool)
| PyInt (z : Z)
| PyStr (s : string)
| PyList (l : list string).

(** The exceptions raised, or let through, by [main.py]. [ReferenceError]
    is the reading of a reference that names no stored object; no run of
    [Dag.__init__] does that (lemma [Dag_init_ok]). *)
Inductive exn :=
| ValueError (msg : string)
| TypeError
| KeyError (key : string)
| FileNotFoundError (path : string)
| IsADirectoryError (path : string)
| NotADirectoryError (path : string)
| SameFileError (path : string)
| ReferenceError
| SystemExit.

Inductive result (A : Type) :=
| Ok (a : A)
| Raise (e : exn).
Arguments Ok {A} a.
Arguments Raise {A} e.

(** Sequencing: the first exception raised ends the computation. *)
Global Instance result_ret : MRet result := λ A a, Ok a.
Global Instance result_bind : MBind result := λ A B k m,
  match m with
  | Ok a => k a
  | Raise e => Raise e
  end.

(** The character with code 34 (a double quote) and the line feed. *)
Definition dquote : string := String (ascii_of_nat 34) EmptyString.
Definition nl : string := String (ascii_of_nat 10) EmptyString.

(** [sep.join(l)] *)
Definition join (sep : string) (l : list string) : string :=
  String.concat sep l.

(** [''.join(l)] *)
Definition concat (l : list string) : string := join "" l.

(** [s.split(' ')]: one field per space, empty fields kept. *)
Fixpoint split_space (s : string) : list string :=
  match s with
  | EmptyString => [EmptyString]
  | String c rest =>
      if Ascii.eqb c " "%char
      then EmptyString :: split_space rest
      else match split_space rest with
           | [] => [String c EmptyString]
           | w :: ws => String c w :: ws
           end
  end.

(** [' ' in s] *)
Fixpoint has_space (s : string) : bool :=
  match s with
  | EmptyString => false
  | String c rest => Ascii.eqb c " "%char || has_space rest
  end.

Definition upper_ascii (c : ascii) : ascii :=
  let n := Ascii.nat_of_ascii c in
  if (97 <=? n)%nat && (n <=? 122)%nat
  then Ascii.ascii_of_nat (n - 32)
  else c.

(** [s.upper()] for an ASCII [s]: the letters [a] to [z] change, and
    nothing else. (On other strings [str.upper] also changes the cased
    letters above code point 127, some of them to more than one
    character; see [is_ascii].) *)
Fixpoint upper (s : string) : string :=
  match s with
  | EmptyString => EmptyString
  | String c rest => String (upper_ascii c) (upper rest)
  end.

(** [s.isascii()] *)
Fixpoint is_ascii (s : string) : bool :=
  match s with
  | EmptyString => true
  | String c rest => (Ascii.nat_of_ascii c <? 128)%nat && is_ascii rest
  end.

(** [l.sort()] on a list of [str]: ascending in the order of [str],
    which compares code points lexicographically. *)
Definition sort (l : list string) : list string :=
  merge_sort String.le l.

(** [x in l] *)
Definition contains (x : string) (l : list string) : bool :=
  bool_decide (x ∈ l).

(** [repr] of a [str] that holds no quote, backslash or control
    character, and of a list of such. *)
Definition repr_str (s : string) : string := "'" +:+ s +:+ "'".
Definition repr_list (l : list string) : string :=
  "[" +:+ join ", " (repr_str <$> l) +:+ "]".

(** ['{}'.format(x)] *)
Definition format (x : pyobj) : string :=
  match x with
  | PyNone => "None"
  | PyBool true => "True"
  | PyBool false => "False"
  | PyInt z => NilZero.string_of_int (Z.to_int z)
  | PyStr s => s
  | PyList l => repr_list l
  end.

(** Iterating a [str] yields its characters, each a [str] of length 1. *)
Fixpoint chars (s : string) : list string :=
  match s with
  | EmptyString => []
  | String c rest => String c EmptyString :: chars rest
  end.

(** [iter(x)] run to its end, for the iterable objects. *)
Definition iter (x : pyobj) : result (list string) :=
  match x with
  | PyStr s => Ok (chars s)
  | PyList l => Ok l
  | _ => Raise TypeError
  end.

End Py.
Import Py.

(** ** [os.path], [os.environ], [shutil]

    The file system is a tree of directories and regular files: there are
    no symbolic or hard links and no special files, and every path may be
    read and written. A path names the node that [os.path.normpath]
    makes of it from the current directory, so [..] steps back by name;
    the kernel steps back by directory, which is the same on every path
    without [..], and on a path whose [..] follow directories that
    exist. *)

Module Os.

#[warnings="-register-all"] Inductive tree :=
| File
| Dir (entries : gmap string tree).

(** The part of the operating system [main.py] reads and writes: the
    environment, the file system, the current directory (an absolute
    path, as [os.getcwd()] returns it) and
    [os.path.dirname(os.path.dirname(__file__))]. *)
Record world := {
  environ : gmap string string;
  root : tree;
  cwd : string;
  package_root : string
}.

Definition with_root (w : world) (root' : tree) : world :=
  {| environ := environ w; root := root';
     cwd := cwd w; package_root := package_root w |}.

Fixpoint ends_with_sep (p : string) : bool :=
  match p with
  | EmptyString => false
  | String c EmptyString => Ascii.eqb c "/"%char
  | String _ rest => ends_with_sep rest
  end.

Definition starts_with_sep (p : string) : bool :=
  match p with
  | String c _ => Ascii.eqb c "/"%char
  | EmptyString => false
  end.

(** [os.path.join(a, b)] of [posixpath] *)
Definition join (a b : string) : string :=
  if starts_with_sep b then b
  else if String.eqb a "" || ends_with_sep a then a +:+ b
  else a +:+ "/" +:+ b.

Fixpoint basename_go (cur p : string) : string :=
  match p with
  | EmptyString => cur
  | String c rest =>
      if Ascii.eqb c "/"%char then basename_go rest rest
      else basename_go cur rest
  end.

(** [os.path.basename(p)]: what follows the last separator. *)
Definition basename (p : string) : string := basename_go p p.

(** [p.split('/')] *)
Fixpoint split_path (p : string) : list string :=
  match p with
  | EmptyString => [EmptyString]
  | String c rest =>
      if Ascii.eqb c "/"%char then EmptyString :: split_path rest
      else match split_path rest with
           | [] => [String c EmptyString]
           | comp :: comps => String c comp :: comps
           end
  end.

(** The loop of [os.path.normpath] over the components: empty ones and
    [.] are dropped, [..] takes the component before it away; at the
    root, [..] is dropped; a relative path keeps its leading [..]. *)
Fixpoint normalise (rooted : bool) (new_comps comps : list string)
    : list string :=
  match comps with
  | [] => new_comps
  | comp :: rest =>
      if bool_decide (comp = "" ∨ comp = ".")
      then normalise rooted new_comps rest
      else if bool_decide (comp ≠ ".."
                           ∨ (rooted = false ∧ new_comps = [])
                           ∨ last new_comps = Some "..")
      then normalise rooted (new_comps ++ [comp]) rest
      else normalise rooted (removelast new_comps) rest
  end.

(** The number of leading separators [normpath] keeps: two when the
    path starts with exactly two, else at most one. *)
Definition initial_slashes (path : string) : nat :=
  match path with
  | String c1 (String c2 (String c3 _)) =>
      if Ascii.eqb c1 "/"%char
      then if Ascii.eqb c2 "/"%char && negb (Ascii.eqb c3 "/"%char)
           then 2 else 1
      else 0
  | String c1 (String c2 EmptyString) =>
      if Ascii.eqb c1 "/"%char
      then if Ascii.eqb c2 "/"%char then 2 else 1
      else 0
  | String c1 EmptyString => if Ascii.eqb c1 "/"%char then 1 else 0
  | EmptyString => 0
  end.

(** [os.path.normpath(path)] of [posixpath] *)
Definition normpath (path : string) : string :=
  if String.eqb path "" then "."
  else
    let slashes := initial_slashes path in
    let comps :=
      normalise (negb (Nat.eqb slashes 0)) [] (split_path path) in
    let path :=
      Py.concat (replicate slashes "/") +:+ Py.join "/" comps in
    if String.eqb path "" then "." else path.

(** The path [p] from the root: [p] itself, or [p] joined to the current
    directory. *)
Definition absolute (w : world) (p : string) : string :=
  if starts_with_sep p then p else join (cwd w) p.

(** [os.path.abspath(p)] *)
Definition abspath (w : world) (p : string) : string :=
  normpath (absolute w p).

(** The names from the root down to what [p] names. *)
Definition canonical (w : world) (p : string) : list string :=
  normalise true [] (split_path (absolute w p)).

(** What is at the end of a path. The last three are the errors of the
    kernel: [ENOENT] for a name missing from a directory that exists
    ([Absent]) or for a missing directory on the way ([NoEntry]), and
    [ENOTDIR] for a regular file where a directory is needed. *)
Inductive status :=
| IsFile
| IsDir
| Absent
| NoEntry
| NotDir.

Fixpoint find (path : list string) (t : tree) : status :=
  match t, path with
  | File, [] => IsFile
  | Dir _, [] => IsDir
  | File, _ :: _ => NotDir
  | Dir entries, name :: rest =>
      match entries !! name with
      | Some t' => find rest t'
      | None => match rest with [] => Absent | _ :: _ => NoEntry end
      end
  end.

(** A path that ends in a separator, [.] or [..] can only name a
    directory. *)
Definition names_a_directory (p : string) : bool :=
  match last (split_path p) with
  | Some comp => bool_decide (comp ∈ [""; "."; ".."])
  | None => false
  end.

(** [os.stat(p)]; the empty path names nothing. *)
Definition stat (w : world) (p : string) : status :=
  if String.eqb p "" then NoEntry
  else match find (canonical w p) (root w) with
       | IsFile => if names_a_directory p then NotDir else IsFile
       | s => s
       end.

(** [os.path.isfile(p)] *)
Definition isfile (w : world) (p : string) : bool :=
  match stat w p with
  | IsFile => true
  | _ => false
  end.

(** [os.path.isdir(p)] *)
Definition isdir (w : world) (p : string) : bool :=
  match stat w p with
  | IsDir => true
  | _ => false
  end.

(** [os.path.exists(p)] *)
Definition exists_ (w : world) (p : string) : bool :=
  isfile w p || isdir w p.

(** Nothing is at [p], and no regular file is on the way to it: opening
    [p] fails with [ENOENT]. *)
Definition missing (w : world) (p : string) : bool :=
  match stat w p with
  | Absent | NoEntry => true
  | _ => false
  end.

(** No component of [p] is [..]. *)
Definition dotdot_free (p : string) : bool :=
  bool_decide (".." ∉ split_path p).

(** [os.path.samefile(a, b)] where [shutil] calls it: an error of
    [os.stat] counts as a different file. *)
Definition samefile (w : world) (a b : string) : bool :=
  exists_ w a && exists_ w b
  && bool_decide (canonical w a = canonical w b).

(** The tree with a regular file at [path], when the directory of [path]
    exists. *)
Fixpoint write (path : list string) (t : tree) : tree :=
  match path, t with
  | [name], Dir entries => Dir (<[name := File]> entries)
  | name :: rest, Dir entries =>
      match entries !! name with
      | Some t' => Dir (<[name := write rest t']> entries)
      | None => t
      end
  | _, _ => t
  end.

(** [p] may be opened for writing: it is a regular file, or a new name
    in a directory that exists. *)
Definition writable (w : world) (p : string) : bool :=
  match stat w p with
  | IsFile => true
  | Absent => negb (names_a_directory p)
  | _ => false
  end.

(** [open(p, 'wb')] and the writing of a file's content. A missing
    path that can only name a directory is reported as missing (Python
    3.10 and later, for a path that ends in a separator). *)
Definition open_for_writing (w : world) (p : string) : result world :=
  match stat w p with
  | IsFile => Ok (with_root w (write (canonical w p) (root w)))
  | Absent =>
      if names_a_directory p then Raise (FileNotFoundError p)
      else Ok (with_root w (write (canonical w p) (root w)))
  | IsDir => Raise (IsADirectoryError p)
  | NoEntry => Raise (FileNotFoundError p)
  | NotDir => Raise (NotADirectoryError p)
  end.

(** [os.environ[key]] *)
Definition getenv (w : world) (key : string) : result string :=
  match environ w !! key with
  | Some v => Ok v
  | None => Raise (KeyError key)
  end.

(** [shutil.copyfile(src, dst)]: the same-file check comes first, then
    the source is opened for reading, then the destination for
    writing. *)
Definition copyfile (w : world) (src dst : string) : result world :=
  if samefile w src dst then Raise (SameFileError src)
  else match stat w src with
       | IsFile => open_for_writing w dst
       | IsDir => Raise (IsADirectoryError src)
       | Absent | NoEntry => Raise (FileNotFoundError src)
       | NotDir => Raise (NotADirectoryError src)
       end.

(** The tree with a directory at [path] and at every name on the way
    that is missing; a regular file on the way stays, and nothing is
    made below it. *)
Fixpoint mkdirs (path : list string) (t : tree) : tree :=
  match path, t with
  | name :: rest, Dir entries =>
      Dir (<[name := mkdirs rest (default (Dir ∅) (entries !! name))]>
             entries)
  | _, _ => t
  end.

(** Modelled from the spec: [utils.check_directory_exists_and_if_not_mkdir]
    is not among the source files; the design document describes the
    directory checks as idempotent, create-if-missing. What exists is
    left as it is; else the directory is made, with the missing
    directories above it. *)
Definition check_directory_exists_and_if_not_mkdir
    (w : world) (d : string) : world :=
  if exists_ w d then w
  else with_root w (mkdirs (canonical w d) (root w)).

End Os.

(** ** class Input *)

(** The [Namespace] that [parse_args] returns. *)
Record Args := {
  args_ini : string;
  args_submit : bool;
  args_outdir : string;
  args_label : string;
  args_queue : Z;
  args_create_summary : bool;
  args_accounting : string;
  args_sampler : pyobj;
  args_include_detectors : pyobj;
  args_coherence_test : bool;
  args_executable : string;
  args_X509 : option string;
  args_exe_help : bool
}.

(** An [Input] object after [__init__]. The attribute [_x509userproxy]
    may be missing from the object: [None] here is the missing attribute,
    [Some None] the attribute set to Python's [None]. *)
Record Input := {
  known_detectors : list string;
  unknown_args : list string;
  ini : string;
  submit : bool;
  _outdir : string;
  label : string;
  queue : Z;
  create_summary : bool;
  accounting : string;
  sampler : pyobj;
  _include_detectors : list string;
  coherence_test : bool;
  _executable : string;
  _x509userproxy : option (option string);
  meta_keys : list string
}.

Definition Input_known_detectors : list string := ["H1"; "L1"; "V1"].

(** [Input._split_string_by_space] *)
Definition Input__split_string_by_space (s : string) : list string :=
  split_space s.

(** The error of the [include_detectors] setter for an element outside
    the known detectors. *)
Definition unknown_detector (known : list string) (element : string) : exn :=
  ValueError
    ("include_detectors contains " +:+ dquote +:+ element +:+ dquote
     +:+ " not in the known detectors list: " +:+ repr_list known +:+ " ").

(** The loop of the [include_detectors] setter over [det_list]: the first
    element outside the known detectors raises. *)
Fixpoint check_known (known det_list : list string) : result unit :=
  match det_list with
  | [] => Ok ()
  | element :: rest =>
      if contains element known then check_known known rest
      else Raise (unknown_detector known element)
  end.

(** The setter of [Input.include_detectors]; the result is the value of
    [_include_detectors]. *)
Definition Input_include_detectors_setter
    (known : list string) (include_detectors : pyobj) : result (list string) :=
  det_list ←
    match include_detectors with
    | PyStr s => Ok (Input__split_string_by_space s)
    | PyList l =>
        match l with
        | [s] => Ok (Input__split_string_by_space s)
        | _ => Ok l
        end
    | _ => Raise (ValueError
             ("Input `include_detectors` = " +:+ format include_detectors
              +:+ " not understood"))
    end;
  let det_list := Py.sort det_list in
  let det_list := upper <$> det_list in
  _ ← check_known known det_list;
  Ok det_list.

(** Sorting the tokens as they are written orders them as their
    upper-case forms are ordered; so it is when all are upper case, or
    all lower case. *)
Definition order_kept_by_upper (tokens : list string) : Prop :=
  Forall (λ a,
    Forall (λ b, String.le a b → String.le (upper a) (upper b)) tokens)
    tokens.

Global Instance order_kept_by_upper_dec tokens :
  Decision (order_kept_by_upper tokens).
Proof. unfold order_kept_by_upper. apply _. Defined.

(** The setter of [Input.outdir]; the result is the value of [_outdir]. *)
Definition Input_outdir_setter
    (w : Os.world) (outdir : string) : string * Os.world :=
  let w := Os.check_directory_exists_and_if_not_mkdir w outdir in
  (Os.abspath w outdir, w).

(** The setter of [Input.executable]; the result is the value of
    [_executable]. *)
Definition Input_executable_setter
    (w : Os.world) (executable : string) : result string :=
  if Os.isfile w executable then Ok executable
  else
    let executable_library := "lib_scripts" in
    let executable_path :=
      Os.join (Os.join (Os.package_root w) executable_library) executable in
    if Os.isfile w executable_path then Ok executable_path
    else if Os.isfile w (executable_path +:+ ".py")
    then Ok (executable_path +:+ ".py")
    else Raise (ValueError "Unable to identify executable").

(** The two errors about the credential. *)
Definition x509_not_set : exn :=
  ValueError
    "The X509 user proxy has not been correctly set, please check the logs".

Definition x509_not_a_file : exn :=
  ValueError "Input X509 not a file or not understood".

(** The getter of [Input.x509userproxy], on the attribute's state. *)
Definition Input_x509userproxy_getter
    (attr : option (option string)) : result (option string) :=
  match attr with
  | Some v => Ok v
  | None => Raise x509_not_set
  end.

(** The two warnings of the [x509userproxy] setter. *)
Definition x509_warning_no_file : string :=
  "Environment variable X509_USER_PROXY does not point to a"
  +:+ " file. Try running $ligo-proxy-init albert.einstein".

Definition x509_warning_not_set : string :=
  "Environment variable X509_USER_PROXY not set"
  +:+ " Try running $ligo-proxy-init albert.einstein".

(** The setter of [Input.x509userproxy], run on an object whose [outdir]
    is [outdir] and which has no attribute [_x509userproxy] yet. The
    result is the attribute's state, the world after the setter and the
    messages given to [logger.warning]. Only [FileNotFoundError] and
    [KeyError] are caught; the first leaves the attribute missing, the
    second sets it to [None]. *)
Definition Input_x509userproxy_setter
    (w : Os.world) (outdir : string) (x509userproxy : option string)
    : result (option (option string) * Os.world * list string) :=
  match x509userproxy with
  | None =>
      let cert_alias := "X509_USER_PROXY" in
      let attempt :=
        cert_path ← Os.getenv w cert_alias;
        let new_cert_path :=
          Os.join outdir ("." +:+ Os.basename cert_path) in
        w' ← Os.copyfile w cert_path new_cert_path;
        Ok (Some (Some new_cert_path), w', []) in
      match attempt with
      | Ok r => Ok r
      | Raise (FileNotFoundError _) => Ok (None, w, [x509_warning_no_file])
      | Raise (KeyError _) => Ok (Some None, w, [x509_warning_not_set])
      | Raise e => Raise e
      end
  | Some path =>
      if Os.isfile w path then Ok (Some (Some path), w, [])
      else Raise x509_not_a_file
  end.

(** [Input.executable_help]: runs the executable with [--help], then
    [sys.exit()]. *)
Definition Input_executable_help {A} : result A := Raise SystemExit.

(** [Input.__init__] *)
Definition Input_init
    (w : Os.world) (args : Args) (unknown : list string)
    : result (Input * Os.world) :=
  let '(outdir, w) := Input_outdir_setter w (args_outdir args) in
  include_detectors ←
    Input_include_detectors_setter Input_known_detectors
      (args_include_detectors args);
  executable ← Input_executable_setter w (args_executable args);
  '(x509, w, _) ← Input_x509userproxy_setter w outdir (args_X509 args);
  _ ← (if args_exe_help args then Input_executable_help else Ok ());
  Ok ({| known_detectors := Input_known_detectors;
         unknown_args := unknown;
         ini := args_ini args;
         submit := args_submit args;
         _outdir := outdir;
         label := args_label args;
         queue := args_queue args;
         create_summary := args_create_summary args;
         accounting := args_accounting args;
         sampler := args_sampler args;
         _include_detectors := include_detectors;
         coherence_test := args_coherence_test args;
         _executable := executable;
         _x509userproxy := x509;
         meta_keys := ["label"; "outdir"; "ini"; "executable";
                       "include_detectors"; "coherence_test";
                       "sampler"; "accounting"] |}, w).

(** ** The interface of [pycondor] that [Dag] uses

    [pycondor] is an external package. A [Job] records the keyword
    arguments it was built with; built with [dag=d] it is added to the
    nodes of [d]; [add_parent] appends to its parents. Jobs are objects:
    the [Dagman] and the [Dag] hold references to them, here indices into
    the store of jobs. *)

Module pycondor.

Record Job := {
  name : string;
  executable : string;
  error : string;
  log : string;
  output : string;
  submit : string;
  request_memory : pyobj;
  request_disk : pyobj;
  request_cpus : pyobj;
  getenv : pyobj;
  universe : pyobj;
  initialdir : pyobj;
  notification : pyobj;
  requirements : pyobj;
  queue : pyobj;
  extra_lines : string;
  arguments : string;
  retry : pyobj;
  verbose : pyobj;
  parents : list nat
}.

(** What the [Dagman] has been asked to do with its nodes. *)
Inductive rendering := NotBuilt | Built | BuiltAndSubmitted.

Record Dagman := {
  dagman_name : string;
  dagman_submit : string;
  nodes : list nat;
  rendered : rendering
}.

(** [Dagman.add_job] *)
Definition add_job (d : Dagman) (ref : nat) : Dagman :=
  {| dagman_name := dagman_name d; dagman_submit := dagman_submit d;
     nodes := nodes d ++ [ref]; rendered := rendered d |}.

(** [Job.add_parent] *)
Definition add_parent (j : Job) (parent : nat) : Job :=
  {| name := name j; executable := executable j; error := error j;
     log := log j; output := output j; submit := submit j;
     request_memory := request_memory j; request_disk := request_disk j;
     request_cpus := request_cpus j; getenv := getenv j;
     universe := universe j; initialdir := initialdir j;
     notification := notification j; requirements := requirements j;
     queue := queue j; extra_lines := extra_lines j;
     arguments := arguments j; retry := retry j; verbose := verbose j;
     parents := parents j ++ [parent] |}.

(** [Dagman.build] and [Dagman.build_submit] *)
Definition build (d : Dagman) (r : rendering) : Dagman :=
  {| dagman_name := dagman_name d; dagman_submit := dagman_submit d;
     nodes := nodes d; rendered := r |}.

End pycondor.

(** ** class Dag *)

(** One entry of [Dag.jobs_inputs]: a [dict] with the keys [detectors]
    and [sampler]. *)
Module job_input.
Record t := { detectors : list string; sampler : string }.
End job_input.

Record Dag := {
  request_memory : pyobj;
  request_disk : pyobj;
  request_cpus : pyobj;
  getenv : pyobj;
  universe : pyobj;
  initialdir : pyobj;
  notification : pyobj;
  requirements : pyobj;
  retry : pyobj;
  verbose : pyobj;
  inputs : Input;
  dag : pycondor.Dagman;
  jobs : list nat;
  results_pages : gmap string string;
  (** the [pycondor.Job] objects created so far, by reference *)
  objects : list pycondor.Job
}.

(** The object [self] with the attributes that change after construction
    replaced. *)
Definition Dag_update (self : Dag) (dag' : pycondor.Dagman) (jobs' : list nat)
    (results_pages' : gmap string string) (objects' : list pycondor.Job)
    : Dag :=
  {| request_memory := request_memory self;
     request_disk := request_disk self;
     request_cpus := request_cpus self;
     getenv := getenv self;
     universe := universe self;
     initialdir := initialdir self;
     notification := notification self;
     requirements := requirements self;
     retry := retry self;
     verbose := verbose self;
     inputs := inputs self;
     dag := dag';
     jobs := jobs';
     results_pages := results_pages';
     objects := objects' |}.

(** [pycondor.Job(..., dag=self.dag)]: the new object's reference and the
    state with the object stored and added to the nodes of the dag. *)
Definition new_Job (self : Dag) (j : pycondor.Job) : nat * Dag :=
  let ref := length (objects self) in
  (ref, Dag_update self (pycondor.add_job (dag self) ref) (jobs self)
          (results_pages self) (objects self ++ [j])).

(** Reading the object behind a reference. *)
Definition deref (self : Dag) (ref : nat) : result pycondor.Job :=
  match objects self !! ref with
  | Some j => Ok j
  | None => Raise ReferenceError
  end.

(** [Dag.submit_directory] *)
Definition Dag_submit_directory (i : Input) : string :=
  Os.join (_outdir i) "submit".

(** [itertools.product(xs, ys)]: the last argument varies fastest. *)
Definition itertools_product {A B} (xs : list A) (ys : list B) : list (A * B) :=
  x ← xs; y ← ys; [(x, y)].

(** [Dag.jobs_inputs]. [itertools.product] iterates [self.inputs.sampler]:
    a list gives its elements; a bare [str], such as the default
    ['dynesty'] of [parse_args], gives its characters. *)
Definition Dag_jobs_inputs (i : Input) : result (list job_input.t) :=
  let detectors_list := [_include_detectors i] in
  let detectors_list :=
    if coherence_test i
    then detectors_list ++ ((λ detector, [detector]) <$> _include_detectors i)
    else detectors_list in
  sampler_list ← iter (sampler i);
  let prod_list := itertools_product detectors_list sampler_list in
  Ok ((λ '(detectors, sampler),
         {| job_input.detectors := detectors; job_input.sampler := sampler |})
      <$> prod_list).

(** The argument string of a leaf job, built as [_create_job] does. *)
Definition leaf_arguments (i : Input) (detectors : list string)
    (sampler : string) : string :=
  let arguments := "--ini " +:+ ini i in
  let arguments :=
    foldl (λ arguments detector, arguments +:+ " --detectors " +:+ detector)
      arguments detectors in
  let arguments := arguments +:+ " --sampler " +:+ sampler in
  let arguments := arguments +:+ " --cluster $(Cluster)" in
  let arguments := arguments +:+ " --process $(Process)" in
  arguments +:+ " " +:+ Py.join " " (unknown_args i).

(** The name of a leaf job. *)
Definition run_label (i : Input) (detectors : list string)
    (sampler : string) : string :=
  label i +:+ "_" +:+ Py.concat detectors +:+ "_" +:+ sampler.

(** [Dag._create_job]: the reference of the new job and the state after
    the call. Reading [self.inputs.x509userproxy] goes through the getter
    and may raise. *)
Definition Dag__create_job (self : Dag) (detectors : pyobj) (sampler : string)
    : result (nat * Dag) :=
  match detectors with
  | PyList detectors =>
      let i := inputs self in
      let job_logs_path := Os.join (_outdir i) "logs" in
      let error := job_logs_path in
      let log := job_logs_path in
      let output := job_logs_path in
      let submit := Dag_submit_directory i in
      let extra_lines := "accounting_group=" +:+ accounting i in
      x509 ← Input_x509userproxy_getter (_x509userproxy i);
      let extra_lines :=
        extra_lines +:+ nl +:+ "x509userproxy="
        +:+ format (from_option PyStr PyNone x509) in
      let arguments := leaf_arguments i detectors sampler in
      let run_label := run_label i detectors sampler in
      let '(job, self) := new_Job self
        {| pycondor.name := run_label;
           pycondor.executable := _executable i;
           pycondor.error := error;
           pycondor.log := log;
           pycondor.output := output;
           pycondor.submit := submit;
           pycondor.request_memory := request_memory self;
           pycondor.request_disk := request_disk self;
           pycondor.request_cpus := request_cpus self;
           pycondor.getenv := getenv self;
           pycondor.universe := universe self;
           pycondor.initialdir := initialdir self;
           pycondor.notification := notification self;
           pycondor.requirements := requirements self;
           pycondor.queue := PyInt (queue i);
           pycondor.extra_lines := extra_lines;
           pycondor.arguments := arguments;
           pycondor.retry := retry self;
           pycondor.verbose := verbose self;
           pycondor.parents := [] |} in
      let self := Dag_update self (dag self) (jobs self)
        (<[run_label := run_label +:+ ".html"]> (results_pages self))
        (objects self) in
      Ok (job, self)
  | _ => Raise (ValueError "`detectors must be a list")
  end.

(** The loop of [Dag.create_jobs]. *)
Fixpoint create_jobs_loop (self : Dag) (jobs_inputs : list job_input.t)
    : result Dag :=
  match jobs_inputs with
  | [] => Ok self
  | job_input :: rest =>
      '(job, self) ← Dag__create_job self
         (PyList (job_input.detectors job_input))
         (job_input.sampler job_input);
      create_jobs_loop
        (Dag_update self (dag self) (jobs self ++ [job])
           (results_pages self) (objects self))
        rest
  end.

(** [Dag.create_jobs] *)
Definition Dag_create_jobs (self : Dag) : result Dag :=
  jobs_inputs ← Dag_jobs_inputs (inputs self);
  create_jobs_loop self jobs_inputs.

(** [post_job.add_parent(job)] on the stored object. *)
Definition add_parent (self : Dag) (post_job job : nat) : Dag :=
  Dag_update self (dag self) (jobs self) (results_pages self)
    (alter (λ j, pycondor.add_parent j job) post_job (objects self)).

(** [Dag.create_postprocessing_jobs]. The keyword arguments that the
    call of [pycondor.Job] leaves out are at the defaults of [pycondor]:
    [None], and [0] for [verbose]. *)
Definition Dag_create_postprocessing_jobs (self : Dag) : result Dag :=
  let i := inputs self in
  let job_logs_path := Os.join (_outdir i) "logs" in
  let error := job_logs_path in
  let log := job_logs_path in
  let output := job_logs_path in
  let submit := Dag_submit_directory i in
  let name := label i +:+ "_combine_results" in
  let extra_lines := "accounting_group=" +:+ accounting i in
  expected_h5_files ←
    mapM (λ job, j ← deref self job;
                 Ok (_outdir i +:+ "/" +:+ pycondor.name j +:+ "_result.h5"))
         (jobs self);
  jobs_inputs ← Dag_jobs_inputs i;
  let labels :=
    Py.join " " ((λ job, Py.concat (job_input.detectors job)) <$> jobs_inputs) in
  let arguments :=
    "-r " +:+ Py.join " " expected_h5_files +:+ " -f " +:+ _outdir i +:+ "/"
    +:+ name +:+ "_corner.png -l " +:+ labels in
  let executable := "/home/gregory.ashton/anaconda3/bin/bilby_plot" in
  let '(post_job, self) := new_Job self
    {| pycondor.name := name;
       pycondor.executable := executable;
       pycondor.error := error;
       pycondor.log := log;
       pycondor.output := output;
       pycondor.submit := submit;
       pycondor.request_memory := PyNone;
       pycondor.request_disk := PyNone;
       pycondor.request_cpus := PyNone;
       pycondor.getenv := PyNone;
       pycondor.universe := PyNone;
       pycondor.initialdir := PyNone;
       pycondor.notification := PyNone;
       pycondor.requirements := PyNone;
       pycondor.queue := PyNone;
       pycondor.extra_lines := extra_lines;
       pycondor.arguments := arguments;
       pycondor.retry := PyNone;
       pycondor.verbose := PyInt 0;
       pycondor.parents := [] |} in
  Ok (foldl (λ self job, add_parent self post_job job) self (jobs self)).

(** [Dag.build_submit] *)
Definition Dag_build_submit (self : Dag) : Dag :=
  Dag_update self
    (pycondor.build (dag self)
       (if submit (inputs self) then pycondor.BuiltAndSubmitted
        else pycondor.Built))
    (jobs self) (results_pages self) (objects self).

(** The keyword arguments of [Dag.__init__]. *)
Record kwargs := {
  kw_request_memory : pyobj;
  kw_request_disk : pyobj;
  kw_request_cpus : pyobj;
  kw_getenv : pyobj;
  kw_universe : pyobj;
  kw_initialdir : pyobj;
  kw_notification : pyobj;
  kw_requirements : pyobj;
  kw_retry : pyobj;
  kw_verbose : pyobj
}.

(** Their defaults. *)
Definition kwargs_default : kwargs :=
  {| kw_request_memory := PyNone;
     kw_request_disk := PyNone;
     kw_request_cpus := PyNone;
     kw_getenv := PyBool true;
     kw_universe := PyStr "vanilla";
     kw_initialdir := PyNone;
     kw_notification := PyStr "never";
     kw_requirements := PyNone;
     kw_retry := PyNone;
     kw_verbose := PyInt 0 |}.

(** The attributes [Dag.__init__] sets before it creates the jobs. *)
Definition Dag_attributes (inputs : Input) (kw : kwargs) : Dag :=
  {| request_memory := kw_request_memory kw;
     request_disk := kw_request_disk kw;
     request_cpus := kw_request_disk kw;
     getenv := kw_getenv kw;
     universe := kw_universe kw;
     initialdir := kw_initialdir kw;
     notification := kw_notification kw;
     requirements := kw_requirements kw;
     retry := kw_retry kw;
     verbose := kw_verbose kw;
     inputs := inputs;
     dag := {| pycondor.dagman_name := "main_" +:+ label inputs;
               pycondor.dagman_submit := Dag_submit_directory inputs;
               pycondor.nodes := [];
               pycondor.rendered := pycondor.NotBuilt |};
     jobs := [];
     results_pages := ∅;
     objects := [] |}.

(** [Dag.__init__] *)
Definition Dag_init (inputs : Input) (kw : kwargs) : result Dag :=
  let self := Dag_attributes inputs kw in
  self ← Dag_create_jobs self;
  self ← Dag_create_postprocessing_jobs self;
  Ok (Dag_build_submit self).

(** ** The fixture of [tests/dag_test.py] *)

(** A world in which the executable of the test is in the library
    directory [/pkg/lib_scripts] and the certificate of the test is
    [/tests/X509.txt]; the current directory [/cwd] is empty; the
    environment is given. *)
Definition test_world (environ : gmap string string) : Os.world :=
  {| Os.environ := environ;
     Os.root :=
       Os.Dir
         {[ "pkg" :=
              Os.Dir {[ "lib_scripts" :=
                          Os.Dir {[ "bbh_from_gracedb.py" := Os.File ]} ]};
            "tests" := Os.Dir {[ "X509.txt" := Os.File ]};
            "cwd" := Os.Dir ∅ ]};
     Os.cwd := "/cwd";
     Os.package_root := "/pkg" |}.

(** The arguments of [setUp], with the four the tests vary. *)
Definition test_args (include_detectors : pyobj) (coherence_test : bool)
    (sampler : pyobj) (X509 : option string) : Args :=
  {| args_ini := "file.ini";
     args_submit := false;
     args_outdir := "outdir";
     args_label := "label";
     args_queue := 1;
     args_create_summary := false;
     args_accounting := "accounting.group";
     args_sampler := sampler;
     args_include_detectors := include_detectors;
     args_coherence_test := coherence_test;
     args_executable := "bbh_from_gracedb.py";
     args_X509 := X509;
     args_exe_help := false |}.

Definition test_unknown_args : list string := ["--argument"; "value"].

(** The [Input] object that [Input.__init__] builds from [test_args] in
    [test_world]. *)
Definition test_inputs (include_detectors : list string)
    (coherence_test : bool) (sampler : pyobj)
    (x509 : option (option string)) : Input :=
  {| known_detectors := Input_known_detectors;
     unknown_args := test_unknown_args;
     ini := "file.ini";
     submit := false;
     _outdir := "/cwd/outdir";
     label := "label";
     queue := 1;
     create_summary := false;
     accounting := "accounting.group";
     sampler := sampler;
     _include_detectors := include_detectors;
     coherence_test := coherence_test;
     _executable := "/pkg/lib_scripts/bbh_from_gracedb.py";
     _x509userproxy := x509;
     meta_keys := ["label"; "outdir"; "ini"; "executable";
                   "include_detectors"; "coherence_test";
                   "sampler"; "accounting"] |}.

(** ** The objects the properties speak of *)

(** The [pycondor.Job] that [Dag._create_job] builds for the given
    detectors and sampler, when the credential reads as [x509]. *)
Definition leaf_Job (self : Dag) (detectors : list string) (sampler : string)
    (x509 : option string) : pycondor.Job :=
  let i := inputs self in
  {| pycondor.name := run_label i detectors sampler;
     pycondor.executable := _executable i;
     pycondor.error := Os.join (_outdir i) "logs";
     pycondor.log := Os.join (_outdir i) "logs";
     pycondor.output := Os.join (_outdir i) "logs";
     pycondor.submit := Dag_submit_directory i;
     pycondor.request_memory := request_memory self;
     pycondor.request_disk := request_disk self;
     pycondor.request_cpus := request_cpus self;
     pycondor.getenv := getenv self;
     pycondor.universe := universe self;
     pycondor.initialdir := initialdir self;
     pycondor.notification := notification self;
     pycondor.requirements := requirements self;
     pycondor.queue := PyInt (queue i);
     pycondor.extra_lines :=
       "accounting_group=" +:+ accounting i +:+ nl +:+ "x509userproxy="
       +:+ format (from_option PyStr PyNone x509);
     pycondor.arguments := leaf_arguments i detectors sampler;
     pycondor.retry := retry self;
     pycondor.verbose := verbose self;
     pycondor.parents := [] |}.

(** The leaf jobs of a [Dag], read from the store; a reference to no
    object is skipped. *)
Definition leaf_jobs (self : Dag) : list pycondor.Job :=
  omap (λ job, objects self !! job) (jobs self).

(** The entries that [results_pages] gains with the leaf jobs. *)
Definition add_results_pages (i : Input) (jobs_inputs : list job_input.t)
    (pages : gmap string string) : gmap string string :=
  foldl (λ pages job,
           let run_label :=
             run_label i (job_input.detectors job) (job_input.sampler job) in
           <[run_label := run_label +:+ ".html"]> pages)
        pages jobs_inputs.

(** The state after the loop of [create_jobs] over [l], started in
    [self], when the credential reads as [x]: one job per entry, stored
    and referenced in the order of [l]. *)
Definition after_create_jobs (self : Dag) (l : list job_input.t)
    (x : option string) : Dag :=
  let refs := seq (length (objects self)) (length l) in
  Dag_update self
    {| pycondor.dagman_name := pycondor.dagman_name (dag self);
       pycondor.dagman_submit := pycondor.dagman_submit (dag self);
       pycondor.nodes := pycondor.nodes (dag self) ++ refs;
       pycondor.rendered := pycondor.rendered (dag self) |}
    (jobs self ++ refs)
    (add_results_pages (inputs self) l (results_pages self))
    (objects self ++
       ((λ job, leaf_Job self (job_input.detectors job)
                  (job_input.sampler job) x) <$> l)).

(** The subset entries of the expansion, as the design document lists
    them: the full detector set, then, under the coherence test, one
    singleton per detector. *)
Definition detector_subsets (i : Input) : list (list string) :=
  _include_detectors i ::
  (if coherence_test i then (λ d, [d]) <$> _include_detectors i else []).

Definition job_spec (subset : list string) (sampler : string) : job_input.t :=
  {| job_input.detectors := subset; job_input.sampler := sampler |}.

(** The tokens of the argument string of a leaf job that come before the
    passthrough arguments. *)
Definition leaf_tokens (i : Input) (detectors : list string)
    (sampler : string) : list string :=
  ["--ini"; ini i]
  ++ (detector ← detectors; ["--detectors"; detector])
  ++ ["--sampler"; sampler; "--cluster"; "$(Cluster)";
      "--process"; "$(Process)"].

(** The aggregation job that [Dag.create_postprocessing_jobs] builds in
    the state [self], once every leaf job has been added as a parent. *)
Definition post_Job (self : Dag) (jobs_inputs : list job_input.t)
    : pycondor.Job :=
  let i := inputs self in
  let name := label i +:+ "_combine_results" in
  {| pycondor.name := name;
     pycondor.executable := "/home/gregory.ashton/anaconda3/bin/bilby_plot";
     pycondor.error := Os.join (_outdir i) "logs";
     pycondor.log := Os.join (_outdir i) "logs";
     pycondor.output := Os.join (_outdir i) "logs";
     pycondor.submit := Dag_submit_directory i;
     pycondor.request_memory := PyNone;
     pycondor.request_disk := PyNone;
     pycondor.request_cpus := PyNone;
     pycondor.getenv := PyNone;
     pycondor.universe := PyNone;
     pycondor.initialdir := PyNone;
     pycondor.notification := PyNone;
     pycondor.requirements := PyNone;
     pycondor.queue := PyNone;
     pycondor.extra_lines := "accounting_group=" +:+ accounting i;
     pycondor.arguments :=
       "-r "
       +:+ Py.join " "
             ((λ j, _outdir i +:+ "/" +:+ pycondor.name j +:+ "_result.h5")
              <$> leaf_jobs self)
       +:+ " -f " +:+ _outdir i +:+ "/" +:+ name +:+ "_corner.png -l "
       +:+ Py.join " "
             ((λ job, Py.concat (job_input.detectors job)) <$> jobs_inputs);
     pycondor.retry := PyNone;
     pycondor.verbose := PyInt 0;
     pycondor.parents := jobs self |}.

(** The state after [create_postprocessing_jobs], started in [self]. *)
Definition after_postprocessing (self : Dag) (jobs_inputs : list job_input.t)
    : Dag :=
  Dag_update self
    (pycondor.add_job (dag self) (length (objects self)))
    (jobs self) (results_pages self)
    (objects self ++ [post_Job self jobs_inputs]).

(** The entries the expander yields for an [Input] whose sampler
    iterates as [samplers]. *)
Definition expansion (i : Input) (samplers : list string)
    : list job_input.t :=
  subset ← detector_subsets i; job_spec subset <$> samplers.

(** ** [main] *)

(** The path of an executable in the library of scripts. *)
Definition library_path (w : Os.world) (executable : string) : string :=
  Os.join (Os.join (Os.package_root w) "lib_scripts") executable.

(** [main], from the result of [parse_args] on. [webpages] is not among
    the source files: the last component of the result says whether
    [webpages.create_summary_page(dag)] is called. *)
Definition main (w : Os.world) (args : Args) (unknown_args : list string)
    : result (Os.world * Dag * bool) :=
  '(inputs, w) ← Input_init w args unknown_args;
  dag ← Dag_init inputs kwargs_default;
  Ok (w, dag, create_summary inputs).

(** The two lines of [extra_lines] of a leaf job. *)
Definition leaf_extra_lines (i : Input) (x509 : option string) : string :=
  "accounting_group=" +:+ accounting i +:+ nl +:+ "x509userproxy="
  +:+ from_option id "None" x509.

(** An environment in which [X509_USER_PROXY] is [path]. *)
Definition proxy_env (path : string) : gmap string string :=
  {[ "X509_USER_PROXY" := path ]}.

(** The arguments of the fixture with [--exe-help]. *)
Definition test_args_exe_help (include_detectors : pyobj) : Args :=
  {| args_ini := "file.ini";
     args_submit := false;
     args_outdir := "outdir";
     args_label := "label";
     args_queue := 1;
     args_create_summary := false;
     args_accounting := "accounting.group";
     args_sampler := PyList ["nestle"];
     args_include_detectors := include_detectors;
     args_coherence_test := false;
     args_executable := "bbh_from_gracedb.py";
     args_X509 := Some "/tests/X509.txt";
     args_exe_help := true |}.

(** The [Dag] that [Dag.__init__] returns for an [Input] whose sampler
    iterates as [samplers] and whose credential reads as [x]. *)
Definition Dag_built (i : Input) (kw : kwargs) (samplers : list string)
    (x : option string) : Dag :=
  Dag_build_submit
    (after_postprocessing
       (after_create_jobs (Dag_attributes i kw) (expansion i samplers) x)
       (expansion i samplers)).

(** ** [lib_scripts/generate_interferometer_list.py]

    The script that a leaf job runs with the compiled arguments: the part
    that normalises its [--detectors]. Characters are code points below
    256. *)

(** [c.isspace()] *)
Definition is_whitespace (c : ascii) : bool :=
  let n := nat_of_ascii c in
  ((9 <=? n)%nat && (n <=? 13)%nat)
  || ((28 <=? n)%nat && (n <=? 32)%nat)
  || (n =? 133)%nat || (n =? 160)%nat.

(** [s.replace(old, new)] for a one-character [old]. *)
Fixpoint str_replace (old : ascii) (new : string) (s : string) : string :=
  match s with
  | EmptyString => EmptyString
  | String c rest =>
      if Ascii.eqb c old then new +:+ str_replace old new rest
      else String c (str_replace old new rest)
  end.

(** The scan of [s.split()]: [cur] is the word read so far. *)
Fixpoint str_split_go (cur s : string) : list string :=
  match s with
  | EmptyString => if String.eqb cur "" then [] else [cur]
  | String c rest =>
      if is_whitespace c
      then (if String.eqb cur "" then [] else [cur]) ++ str_split_go "" rest
      else str_split_go (cur +:+ String c EmptyString) rest
  end.

(** [s.split()]: the words between runs of whitespace. *)
Definition str_split (s : string) : list string := str_split_go "" s.

(** [GenerateInterferometerList._convert_string_to_list], which
    [Input._convert_string_to_list] of [input.py] repeats. *)
Definition _convert_string_to_list (string : String.string)
    : list String.string :=
  let string := str_replace ","%char " " string in
  let string := str_replace "["%char "" string in
  let string := str_replace "]"%char "" string in
  let string := str_replace (ascii_of_nat 34) "" string in
  let string := str_replace "'"%char "" string in
  let string_list := str_split string in
  string_list.

(** The setter of [GenerateInterferometerList.detectors]; the result is
    the value of [_detectors]. *)
Definition GenerateInterferometerList_detectors_setter (detectors : pyobj)
    : result (list string) :=
  det_list ←
    match detectors with
    | PyList l =>
        match l with
        | [s] => Ok (_convert_string_to_list s)
        | _ => Ok l
        end
    | _ => Raise (ValueError
             ("Input `detectors` = " +:+ format detectors
              +:+ " not understood"))
    end;
  let det_list := Py.sort det_list in
  let det_list := upper <$> det_list in
  Ok det_list.

(** A character that [_convert_string_to_list] neither removes nor
    splits at. *)
Definition plain_char (c : ascii) : bool :=
  negb (is_whitespace c)
  && negb (Ascii.eqb c ","%char) && negb (Ascii.eqb c "["%char)
  && negb (Ascii.eqb c "]"%char) && negb (Ascii.eqb c (ascii_of_nat 34))
  && negb (Ascii.eqb c "'"%char).

Fixpoint all_chars (P : ascii → bool) (s : string) : bool :=
  match s with
  | EmptyString => true
  | String c rest => P c && all_chars P rest
  end.

(** A non-empty word of plain characters. *)
Definition plain_token (s : string) : bool :=
  negb (String.eqb s "") && all_chars plain_char s.

(** The five replacements of [_convert_string_to_list]. *)
Definition strip_delimiters (s : string) : string :=
  str_replace "'"%char ""
    (str_replace (ascii_of_nat 34) ""
       (str_replace "]"%char ""
          (str_replace "["%char "" (str_replace ","%char " " s)))).
(** * Properties *)

(** ** Strings *)

Lemma split_space_no_space s :
  has_space s = false → split_space s = [s].
Proof.
  induction s as [|c s IH]; simpl; [done|].
  intros [Hc Hs]%orb_false_elim. rewrite Hc, (IH Hs). done.
Qed.

Lemma split_space_cons_field s rest :
  has_space s = false →
  split_space (s +:+ " " +:+ rest) = s :: split_space rest.
Proof.
  induction s as [|c s IH]; simpl; [done|].
  intros [Hc Hs]%orb_false_elim. rewrite Hc, (IH Hs). done.
Qed.

(** Splitting at the spaces undoes the joining with spaces of fields that
    hold no space. *)
Lemma split_space_join l :
  l ≠ [] → Forall (λ s, has_space s = false) l →
  split_space (Py.join " " l) = l.
Proof.
  intros Hne Hl. induction Hl as [|s l Hs Hl IH]; [done|].
  destruct l as [|s' l].
  - simpl. by apply split_space_no_space.
  - change (Py.join " " (s :: s' :: l))
      with (s +:+ " " +:+ Py.join " " (s' :: l)).
    rewrite split_space_cons_field by done. by rewrite IH.
Qed.

Lemma append_cons c (a b : string) : String c a +:+ b = String c (a +:+ b).
Proof. reflexivity. Qed.

Lemma append_assoc (a b c : string) : (a +:+ b) +:+ c = a +:+ b +:+ c.
Proof.
  induction a as [|x a IH]; [done|]. by rewrite !append_cons, IH.
Qed.

Lemma append_nil_r (a : string) : a +:+ "" = a.
Proof.
  induction a as [|x a IH]; [done|]. by rewrite append_cons, IH.
Qed.

(** ** Sorting *)

Lemma sort_sorted l : Sorted String.le (Py.sort l).
Proof. unfold Py.sort. apply Sorted_merge_sort. apply _. Qed.

Lemma sort_perm l : Py.sort l ≡ₚ l.
Proof. apply merge_sort_Permutation. Qed.

(** [sort] depends on the elements only, not on the order they come in. *)
Lemma sort_of_perm l1 l2 : l1 ≡ₚ l2 → Py.sort l1 = Py.sort l2.
Proof.
  intros Hp. apply (Sorted_unique String.le); try apply sort_sorted.
  by rewrite !sort_perm.
Qed.

Lemma upper_known d : d ∈ Input_known_detectors → upper d = d.
Proof.
  unfold Input_known_detectors. rewrite !elem_of_cons, elem_of_nil.
  intros [->|[->|[->|[]]]]; reflexivity.
Qed.

Lemma check_known_ok known l :
  Forall (λ d, d ∈ known) l → check_known known l = Ok ().
Proof.
  induction 1 as [|d l Hd _ IH]; simpl; [done|].
  unfold contains. by rewrite bool_decide_eq_true_2.
Qed.

(** ** Detector normalisation *)

Lemma known_no_space d : d ∈ Input_known_detectors → has_space d = false.
Proof.
  unfold Input_known_detectors. rewrite !elem_of_cons, elem_of_nil.
  intros [->|[->|[->|[]]]]; reflexivity.
Qed.

(** A list of tokens, none with a space, is taken as it is: the split of
    a single token leaves it whole. *)
Lemma setter_token_list l :
  Forall (λ s, has_space s = false) l →
  match l with
  | [s] => Ok (Input__split_string_by_space s)
  | _ => Ok l
  end = Ok l.
Proof.
  intros Hl. destruct l as [|s [|s' l]]; try done.
  apply Forall_cons in Hl as [Hs _].
  unfold Input__split_string_by_space. by rewrite split_space_no_space.
Qed.

Lemma setter_of_known l :
  Forall (λ d, d ∈ Input_known_detectors) l →
  Input_include_detectors_setter Input_known_detectors (PyList l)
  = Ok (Py.sort l).
Proof.
  intros Hl. unfold Input_include_detectors_setter.
  rewrite setter_token_list
    by (eapply Forall_impl; [exact Hl|]; apply known_no_space).
  cbn.
  assert (upper <$> Py.sort l = Py.sort l) as ->.
  { rewrite <- (list_fmap_id (Py.sort l)) at 2.
    apply list_fmap_ext. intros _ d Hd%list_elem_of_lookup_2. cbn.
    apply upper_known. rewrite sort_perm in Hd.
    by eapply Forall_forall in Hl. }
  rewrite check_known_ok; [done|].
  apply Forall_forall. intros d Hd. rewrite sort_perm in Hd.
  by eapply Forall_forall in Hl.
Qed.

(** C4, as stated, fails on the code: a comma- or bracket-delimited
    string is not split, it is rejected as an unknown detector, while the
    same detectors as separate tokens are accepted. Besides, the tokens
    are sorted as written and a detector named twice is kept twice, so
    two inputs for the same set of detectors can give different lists. *)
Lemma include_detectors_comma_or_bracket_string_rejected :
  Input_include_detectors_setter Input_known_detectors (PyList ["H1"; "L1"])
    = Ok ["H1"; "L1"]
  ∧ Input_include_detectors_setter Input_known_detectors (PyStr "H1,L1")
    = Raise (ValueError
        ("include_detectors contains " +:+ dquote +:+ "H1,L1" +:+ dquote
         +:+ " not in the known detectors list: ['H1', 'L1', 'V1'] "))
  ∧ Input_include_detectors_setter Input_known_detectors (PyStr "[H1, L1]")
    = Raise (ValueError
        ("include_detectors contains " +:+ dquote +:+ "L1]" +:+ dquote
         +:+ " not in the known detectors list: ['H1', 'L1', 'V1'] "))
  ∧ Input_include_detectors_setter Input_known_detectors (PyStr "h1 L1")
    = Ok ["L1"; "H1"]
  ∧ Input_include_detectors_setter Input_known_detectors (PyStr "H1 L1 H1")
    = Ok ["H1"; "H1"; "L1"].
Proof. repeat split; vm_compute; reflexivity. Qed.

(** A token that is a known detector in upper or lower case holds no
    space. *)
Lemma upper_known_no_space t :
  upper t ∈ Input_known_detectors → has_space t = false.
Proof.
  assert (∀ c : ascii, c = " "%char ∨ Ascii.eqb c " " = false) as Hsp.
  { intros c. destruct (Ascii.eqb_spec c " "); auto. }
  unfold Input_known_detectors. rewrite !elem_of_cons, elem_of_nil.
  intros H.
  destruct t as [|c [|d [|e t]]]; simpl in H;
    try (by destruct H as [H|[H|[H|[]]]]).
  simpl. rewrite orb_false_r.
  destruct (Hsp c) as [-> | ->].
  { by destruct H as [H|[H|[H|[]]]]. }
  destruct (Hsp d) as [-> | ->]; [|done].
  by destruct H as [H|[H|[H|[]]]].
Qed.

(** The setter on tokens that are known detectors in upper or lower
    case: they are sorted as written, then uppercased. *)
Lemma setter_of_tokens l :
  Forall (λ t, upper t ∈ Input_known_detectors) l →
  Input_include_detectors_setter Input_known_detectors (PyList l)
  = Ok (upper <$> Py.sort l).
Proof.
  intros Hl. unfold Input_include_detectors_setter.
  rewrite setter_token_list
    by (eapply Forall_impl; [exact Hl|]; apply upper_known_no_space).
  cbn. rewrite check_known_ok; [done|].
  apply Forall_fmap, Forall_forall. intros d Hd. rewrite sort_perm in Hd.
  by eapply Forall_forall in Hl.
Qed.

Lemma setter_of_token_string l :
  l ≠ [] →
  Forall (λ t, upper t ∈ Input_known_detectors) l →
  Input_include_detectors_setter Input_known_detectors
    (PyStr (Py.join " " l))
  = Ok (upper <$> Py.sort l)
  ∧ Input_include_detectors_setter Input_known_detectors
      (PyList [Py.join " " l])
    = Ok (upper <$> Py.sort l).
Proof.
  intros Hne Hl. rewrite <- (setter_of_tokens l Hl).
  assert (Forall (λ s, has_space s = false) l) as Hsp
    by (eapply Forall_impl; [exact Hl|]; apply upper_known_no_space).
  unfold Input_include_detectors_setter, Input__split_string_by_space.
  rewrite split_space_join by done.
  pose proof (setter_token_list l Hsp) as Hlist.
  unfold Input__split_string_by_space in Hlist. by rewrite Hlist.
Qed.

(** Uppercasing a sorted list leaves it sorted when the order of its
    elements is that of their upper-case forms. *)
Lemma upper_sort_sorted l :
  order_kept_by_upper l →
  upper <$> Py.sort l = Py.sort (upper <$> l).
Proof.
  intros Hmono.
  apply (Sorted_unique String.le); [|apply sort_sorted|].
  - assert (StronglySorted String.le (Py.sort l)) as Hs
      by (apply Sorted_StronglySorted; [apply _|apply sort_sorted]).
    assert (∀ a b, a ∈ Py.sort l → b ∈ Py.sort l →
              String.le a b → String.le (upper a) (upper b)) as Hm.
    { intros a b Ha Hb. rewrite sort_perm in Ha, Hb.
      unfold order_kept_by_upper in Hmono.
      rewrite Forall_forall in Hmono. specialize (Hmono a Ha).
      rewrite Forall_forall in Hmono. by apply Hmono. }
    apply StronglySorted_Sorted.
    induction Hs as [|x xs Hxs IH Hall]; [constructor|].
    rewrite fmap_cons. constructor.
    + apply IH. intros a b Ha Hb. apply Hm; by right.
    + apply Forall_fmap, Forall_forall. intros y Hy. cbn.
      apply Hm; [by left|by right|].
      rewrite Forall_forall in Hall. by apply Hall.
  - by rewrite !sort_perm.
Qed.

(** C4, amended: for the same detectors (each as often in one input as
    in the other) given as one space-delimited string (also as a list of
    that one string) or as already-separated tokens, in any order and in
    upper or lower case, the [include_detectors] setter accepts both
    forms and gives lists of the uppercased tokens, all of them known
    detectors and the same up to order; the two lists are identical when
    the two forms hold the same tokens, and they are both the sorted list
    of the uppercased tokens when sorting the tokens as written orders
    them as their upper-case forms (so when all are upper case, or all
    lower case). *)
Theorem include_detectors_space_string_or_tokens
    (tokens tokens' : list string) :
  tokens ≠ [] →
  Forall (λ t, upper t ∈ Input_known_detectors) tokens →
  upper <$> tokens ≡ₚ upper <$> tokens' →
  ∃ r r',
    Input_include_detectors_setter Input_known_detectors
      (PyStr (Py.join " " tokens)) = Ok r
    ∧ Input_include_detectors_setter Input_known_detectors
        (PyList [Py.join " " tokens]) = Ok r
    ∧ Input_include_detectors_setter Input_known_detectors
        (PyList tokens') = Ok r'
    ∧ r ≡ₚ upper <$> tokens
    ∧ r' ≡ₚ r
    ∧ Forall (λ d, d ∈ Input_known_detectors) r
    ∧ (tokens ≡ₚ tokens' → r' = r)
    ∧ (order_kept_by_upper tokens → order_kept_by_upper tokens' →
       r = Py.sort (upper <$> tokens) ∧ r' = r ∧ Sorted String.le r).
Proof.
  intros Hne Hknown Hperm.
  assert (Forall (λ t, upper t ∈ Input_known_detectors) tokens') as Hknown'.
  { apply Forall_forall. intros t Ht.
    assert (upper t ∈ upper <$> tokens) as Hin
      by (rewrite Hperm; apply list_elem_of_fmap; eauto).
    apply list_elem_of_fmap in Hin as (t0 & -> & Ht0).
    by eapply Forall_forall in Hknown. }
  destruct (setter_of_token_string tokens Hne Hknown) as [Hstr Hone].
  exists (upper <$> Py.sort tokens), (upper <$> Py.sort tokens').
  split; [exact Hstr|]. split; [exact Hone|].
  split; [by apply setter_of_tokens|].
  split; [by rewrite sort_perm|].
  split; [by rewrite !sort_perm|].
  split.
  { apply Forall_fmap, Forall_forall. intros d Hd. rewrite sort_perm in Hd.
    by eapply Forall_forall in Hknown. }
  split.
  { intros Hsame. by rewrite (sort_of_perm _ _ Hsame). }
  intros Hmono Hmono'.
  rewrite !upper_sort_sorted by done.
  split; [done|]. split; [by apply sort_of_perm|apply sort_sorted].
Qed.

(** C4, witness: three detectors in lower case as a string, and in upper
    case as tokens in another order. *)
Lemma include_detectors_space_string_or_tokens_witness :
  Input_include_detectors_setter Input_known_detectors (PyStr "l1 v1 h1")
    = Ok ["H1"; "L1"; "V1"]
  ∧ Input_include_detectors_setter Input_known_detectors
        (PyList ["V1"; "L1"; "H1"]) = Ok ["H1"; "L1"; "V1"].
Proof.
  destruct (include_detectors_space_string_or_tokens
              ["l1"; "v1"; "h1"] ["V1"; "L1"; "H1"]
              ltac:(discriminate)
              ltac:(vm_compute; repeat constructor)
              ltac:(apply perm_swap))
    as (r & r' & Hstr & _ & Hlist & _ & _ & _ & _ & Hsorted).
  destruct Hsorted as (Hr & Hr' & _).
  - apply (bool_decide_eq_true_1 (order_kept_by_upper _)).
    vm_compute. reflexivity.
  - apply (bool_decide_eq_true_1 (order_kept_by_upper _)).
    vm_compute. reflexivity.
  - split.
    + etrans; [exact Hstr|]. by rewrite Hr.
    + etrans; [exact Hlist|]. by rewrite Hr', Hr.
Defined.

(** The detectors are sorted before they are uppercased: lower-case
    letters sort after upper-case ones, so a lower-case token may end up
    out of order. *)
Example include_detectors_sort_precedes_upper :
  Input_include_detectors_setter Input_known_detectors (PyStr "h1 L1")
  = Ok ["L1"; "H1"].
Proof. vm_compute. reflexivity. Qed.

(** ** The file system *)

Lemma find_mkdirs_file c : ∀ t q,
  Os.find q (Os.mkdirs c t) = Os.IsFile ↔ Os.find q t = Os.IsFile.
Proof.
  induction c as [|n c IH]; intros t q; [done|].
  destruct t as [|es]; [done|]. simpl Os.mkdirs.
  destruct q as [|m q]; [done|]. simpl Os.find.
  destruct (decide (m = n)) as [->|Hne].
  - rewrite lookup_insert_eq.
    destruct (es !! n) as [t'|] eqn:Hn; simpl default; [apply IH|].
    rewrite IH. destruct q; simpl; [done|].
    rewrite lookup_empty. by destruct q.
  - by rewrite lookup_insert_ne.
Qed.

Lemma find_write c : ∀ t,
  Os.find c t = Os.IsFile ∨ Os.find c t = Os.Absent →
  Os.find c (Os.write c t) = Os.IsFile.
Proof.
  induction c as [|n c IH]; intros t H.
  - destruct t; simpl in *; [done|]. by destruct H.
  - destruct t as [|es]; [by destruct H|].
    simpl in H. destruct c as [|n' c].
    + simpl. by rewrite lookup_insert_eq.
    + cbn [Os.write]. destruct (es !! n) as [t'|] eqn:Hn; [|by destruct H].
      cbn [Os.find]. rewrite lookup_insert_eq. by apply IH.
Qed.

Lemma find_write_other c : ∀ t q,
  Os.find c t = Os.IsFile ∨ Os.find c t = Os.Absent →
  q ≠ c →
  Os.find q (Os.write c t) = Os.IsFile ↔ Os.find q t = Os.IsFile.
Proof.
  induction c as [|n c IH]; intros t q H Hne; [by destruct t|].
  destruct t as [|es]; [by destruct H|].
  simpl in H. destruct q as [|m q]; [by destruct c; simpl; destruct (es !! n)|].
  destruct (decide (m = n)) as [->|Hmn].
  - assert (q ≠ c) as Hqc by congruence.
    destruct c as [|n' c].
    + simpl. rewrite lookup_insert_eq.
      destruct q as [|m' q]; [done|].
      destruct (es !! n) as [[|es']|]; simpl in *.
      * done.
      * by destruct H.
      * by destruct q.
    + cbn [Os.write]. destruct (es !! n) as [t'|] eqn:Hn; [|done].
      cbn [Os.find]. rewrite lookup_insert_eq, Hn. by apply IH.
  - destruct c as [|n' c]; cbn [Os.write].
    + simpl. by rewrite lookup_insert_ne.
    + destruct (es !! n) as [t'|] eqn:Hn; [|done].
      cbn [Os.find]. by rewrite lookup_insert_ne.
Qed.

Lemma stat_IsFile w p :
  Os.stat w p = Os.IsFile ↔
  p ≠ "" ∧ Os.find (Os.canonical w p) (Os.root w) = Os.IsFile
  ∧ Os.names_a_directory p = false.
Proof.
  unfold Os.stat. destruct (String.eqb_spec p "") as [->|Hp].
  - split; [done|]. by intros [? _].
  - destruct (Os.find _ _); destruct (Os.names_a_directory p);
      split; try done; intros (_ & ? & ?); done.
Qed.

Lemma isfile_IsFile w p : Os.isfile w p = true ↔ Os.stat w p = Os.IsFile.
Proof. unfold Os.isfile. by destruct (Os.stat w p). Qed.

(** ** The credential *)

(** Making the run directory changes nothing but the tree. *)
Lemma mkdir_world w d :
  ∃ root',
    Os.check_directory_exists_and_if_not_mkdir w d = Os.with_root w root'
    ∧ ∀ q, Os.find q root' = Os.IsFile ↔ Os.find q (Os.root w) = Os.IsFile.
Proof.
  unfold Os.check_directory_exists_and_if_not_mkdir.
  destruct (Os.exists_ w d).
  - exists (Os.root w). split; [by destruct w|done].
  - eexists. split; [done|]. intros q. apply find_mkdirs_file.
Qed.

(** Making the run directory creates no regular file. *)
Lemma isfile_mkdir w d p :
  Os.isfile (Os.check_directory_exists_and_if_not_mkdir w d) p
  = Os.isfile w p.
Proof.
  destruct (mkdir_world w d) as (root' & -> & Hroot).
  apply eq_true_iff_eq. rewrite !isfile_IsFile, !stat_IsFile.
  change (Os.canonical (Os.with_root w root') p) with (Os.canonical w p).
  cbn [Os.root Os.with_root]. by rewrite Hroot.
Qed.

Lemma environ_mkdir w d :
  Os.environ (Os.check_directory_exists_and_if_not_mkdir w d) = Os.environ w.
Proof. by destruct (mkdir_world w d) as (root' & -> & _). Qed.

Lemma abspath_mkdir w d :
  Os.abspath (Os.check_directory_exists_and_if_not_mkdir w d) = Os.abspath w.
Proof. by destruct (mkdir_world w d) as (root' & -> & _). Qed.

Lemma executable_setter_mkdir w d e :
  Input_executable_setter (Os.check_directory_exists_and_if_not_mkdir w d) e
  = Input_executable_setter w e.
Proof.
  unfold Input_executable_setter. rewrite !isfile_mkdir.
  assert (Os.package_root (Os.check_directory_exists_and_if_not_mkdir w d)
          = Os.package_root w) as ->; [|done].
  by destruct (mkdir_world w d) as (root' & -> & _).
Qed.

(** [Input.__init__] up to the credential: once the detectors and the
    executable are accepted, the outcome is that of the [x509userproxy]
    setter and of [exe_help]. *)
Lemma Input_init_unfold w args unknown dets exe :
  Input_include_detectors_setter Input_known_detectors
    (args_include_detectors args) = Ok dets →
  Input_executable_setter w (args_executable args) = Ok exe →
  Input_init w args unknown =
    let w1 := Os.check_directory_exists_and_if_not_mkdir w (args_outdir args) in
    '(x509, w2, _) ← Input_x509userproxy_setter w1
                       (Os.abspath w (args_outdir args)) (args_X509 args);
    _ ← (if args_exe_help args then Input_executable_help else Ok ());
    Ok ({| known_detectors := Input_known_detectors;
           unknown_args := unknown;
           ini := args_ini args;
           submit := args_submit args;
           _outdir := Os.abspath w (args_outdir args);
           label := args_label args;
           queue := args_queue args;
           create_summary := args_create_summary args;
           accounting := args_accounting args;
           sampler := args_sampler args;
           _include_detectors := dets;
           coherence_test := args_coherence_test args;
           _executable := exe;
           _x509userproxy := x509;
           meta_keys := ["label"; "outdir"; "ini"; "executable";
                         "include_detectors"; "coherence_test";
                         "sampler"; "accounting"] |}, w2).
Proof.
  intros Hdets Hexe. unfold Input_init, Input_outdir_setter.
  rewrite Hdets, abspath_mkdir. cbn.
  rewrite executable_setter_mkdir, Hexe. reflexivity.
Qed.

(** Whatever the other arguments, [Input.__init__] raises when the
    [x509userproxy] setter does. *)
Lemma Input_init_raises w args unknown e :
  Input_x509userproxy_setter
    (Os.check_directory_exists_and_if_not_mkdir w (args_outdir args))
    (Os.abspath w (args_outdir args)) (args_X509 args) = Raise e →
  ∃ e', Input_init w args unknown = Raise e'.
Proof.
  intros Hx. unfold Input_init, Input_outdir_setter.
  rewrite abspath_mkdir.
  destruct (Input_include_detectors_setter _ _) as [dets|e1]; cbn; [|eauto].
  destruct (Input_executable_setter _ _) as [exe|e2]; cbn; [|eauto].
  rewrite Hx. cbn. eauto.
Qed.

(** C10: an explicit X509 path that does not name an existing file makes
    the [x509userproxy] setter raise
    [ValueError('Input X509 not a file or not understood')]; the
    construction of the [Input] fails, and it fails with this error
    whenever the detectors and the executable, which are set earlier, are
    accepted. *)
Theorem explicit_x509_not_a_file_is_fatal
    (w : Os.world) (args : Args) (unknown : list string) (path : string) :
  args_X509 args = Some path →
  Os.isfile w path = false →
  (∀ outdir,
     Input_x509userproxy_setter w outdir (Some path) = Raise x509_not_a_file)
  ∧ (∃ e, Input_init w args unknown = Raise e)
  ∧ (∀ dets exe,
       Input_include_detectors_setter Input_known_detectors
         (args_include_detectors args) = Ok dets →
       Input_executable_setter w (args_executable args) = Ok exe →
       Input_init w args unknown = Raise x509_not_a_file).
Proof.
  intros Hx Hfile.
  assert (∀ w' outdir, Os.isfile w' path = false →
            Input_x509userproxy_setter w' outdir (Some path)
            = Raise x509_not_a_file) as Hset.
  { intros w' outdir Hw'. unfold Input_x509userproxy_setter.
    by rewrite Hw'. }
  split; [intros outdir; by apply Hset|]. split.
  - eapply Input_init_raises. rewrite Hx. apply Hset.
    by rewrite isfile_mkdir.
  - intros dets exe Hdets Hexe.
    rewrite (Input_init_unfold _ _ _ _ _ Hdets Hexe). cbn zeta.
    rewrite Hx, Hset by (by rewrite isfile_mkdir). reflexivity.
Qed.

(** C10, witness: the fixture of the test with a certificate path that
    names no file. *)
Lemma explicit_x509_not_a_file_is_fatal_witness :
  Input_init (test_world ∅)
    (test_args (PyStr "H1") false (PyList ["nestle"]) (Some "/tests/none.txt"))
    test_unknown_args
  = Raise x509_not_a_file.
Proof.
  refine (proj2 (proj2 (explicit_x509_not_a_file_is_fatal (test_world ∅)
    (test_args (PyStr "H1") false (PyList ["nestle"]) (Some "/tests/none.txt"))
    test_unknown_args "/tests/none.txt" _ _))
    ["H1"] "/pkg/lib_scripts/bbh_from_gracedb.py" _ _);
  vm_compute; reflexivity.
Defined.

(** The fixture is what [Input.__init__] returns. *)
Lemma test_inputs_built environ dets coh sampler path :
  Os.isfile (test_world environ) path = true →
  Forall (λ d, d ∈ Input_known_detectors) dets →
  ∃ w, Input_init (test_world environ)
         (test_args (PyList dets) coh sampler (Some path)) test_unknown_args
       = Ok (test_inputs (Py.sort dets) coh sampler (Some (Some path)), w).
Proof.
  intros Hpath Hdets.
  erewrite Input_init_unfold;
    [|by apply setter_of_known|vm_compute; reflexivity].
  cbn zeta. cbn [args_X509 test_args]. unfold Input_x509userproxy_setter.
  rewrite isfile_mkdir, Hpath. cbn. eauto.
Qed.

(** Reading the credential of an [Input] built with no explicit path, in
    the two cases the setter only warns about. *)
Lemma x509_setter_env_unset w outdir :
  Os.environ w !! "X509_USER_PROXY" = None →
  Input_x509userproxy_setter w outdir None
  = Ok (Some None, w, [x509_warning_not_set]).
Proof.
  intros He. unfold Input_x509userproxy_setter, Os.getenv.
  by rewrite He.
Qed.

Lemma copyfile_missing w src dst :
  Os.missing w src = true →
  Os.copyfile w src dst = Raise (FileNotFoundError src).
Proof.
  unfold Os.missing, Os.copyfile, Os.samefile, Os.exists_, Os.isfile,
    Os.isdir.
  by destruct (Os.stat w src).
Qed.

Lemma x509_setter_env_file_missing w outdir cert_path :
  Os.environ w !! "X509_USER_PROXY" = Some cert_path →
  Os.missing w cert_path = true →
  Input_x509userproxy_setter w outdir None
  = Ok (None, w, [x509_warning_no_file]).
Proof.
  intros He Hf. unfold Input_x509userproxy_setter, Os.getenv.
  rewrite He. cbn. by rewrite copyfile_missing.
Qed.

(** C2, as stated, fails on the code: with [X509_USER_PROXY] naming a
    missing file the construction completes, but the attribute
    [_x509userproxy] is never set, and reading [x509userproxy] raises. *)
Lemma x509_missing_file_then_read_raises :
  ∃ i w,
    Input_init (test_world {[ "X509_USER_PROXY" := "/tmp/x509up_u1000" ]})
      (test_args (PyStr "H1") false (PyList ["nestle"]) None)
      test_unknown_args = Ok (i, w)
    ∧ _x509userproxy i = None
    ∧ Input_x509userproxy_getter (_x509userproxy i) = Raise x509_not_set.
Proof.
  eexists _, _. split; [vm_compute; reflexivity|]. split; reflexivity.
Qed.

(** C2, amended: with no explicit credential path, and the detectors and
    the executable accepted, the construction of the [Input] completes in
    both cases, and the setter logs one warning and nothing else happens
    to the world. When [X509_USER_PROXY] is unset, the credential is set
    to [None] and reading [x509userproxy] returns [None]. When the
    variable names a missing file (nothing is at the path once the run
    directory is there; the path and the run directory are written
    without [..]), the attribute is left unset and reading
    [x509userproxy] raises the [ValueError] of the getter. *)
Theorem x509_env_fallback
    (w : Os.world) (args : Args) (unknown : list string)
    (dets : list string) (exe : string) :
  args_X509 args = None →
  args_exe_help args = false →
  Input_include_detectors_setter Input_known_detectors
    (args_include_detectors args) = Ok dets →
  Input_executable_setter w (args_executable args) = Ok exe →
  let w1 := Os.check_directory_exists_and_if_not_mkdir w (args_outdir args) in
  let outdir := Os.abspath w (args_outdir args) in
  (Os.environ w !! "X509_USER_PROXY" = None →
   Input_x509userproxy_setter w1 outdir None
     = Ok (Some None, w1, [x509_warning_not_set])
   ∧ ∃ i, Input_init w args unknown = Ok (i, w1)
          ∧ _x509userproxy i = Some None
          ∧ Input_x509userproxy_getter (_x509userproxy i) = Ok None)
  ∧ (∀ cert_path,
       Os.environ w !! "X509_USER_PROXY" = Some cert_path →
       Os.dotdot_free cert_path = true →
       Os.dotdot_free (args_outdir args) = true →
       Os.isdir w1 (args_outdir args) = true →
       Os.missing w1 cert_path = true →
       Input_x509userproxy_setter w1 outdir None
         = Ok (None, w1, [x509_warning_no_file])
       ∧ ∃ i, Input_init w args unknown = Ok (i, w1)
              ∧ _x509userproxy i = None
              ∧ Input_x509userproxy_getter (_x509userproxy i)
                = Raise x509_not_set).
Proof.
  intros Hx Hhelp Hdets Hexe w1 outdir. split.
  - intros He.
    assert (Input_x509userproxy_setter w1 outdir None
            = Ok (Some None, w1, [x509_warning_not_set])) as Hset
      by (apply x509_setter_env_unset; unfold w1; by rewrite environ_mkdir).
    split; [exact Hset|].
    rewrite (Input_init_unfold _ _ _ _ _ Hdets Hexe). cbn zeta.
    fold w1 outdir. rewrite Hx, Hset, Hhelp. cbn. eauto.
  - intros cert_path He _ _ _ Hmiss.
    assert (Input_x509userproxy_setter w1 outdir None
            = Ok (None, w1, [x509_warning_no_file])) as Hset
      by (apply (x509_setter_env_file_missing _ _ cert_path);
          [unfold w1; by rewrite environ_mkdir|done]).
    split; [exact Hset|].
    rewrite (Input_init_unfold _ _ _ _ _ Hdets Hexe). cbn zeta.
    fold w1 outdir. rewrite Hx, Hset, Hhelp. cbn. eauto.
Qed.

(** C2, witness: the fixture of the test with no explicit certificate,
    once with [X509_USER_PROXY] unset and once naming a missing file. *)
Lemma x509_env_fallback_witness :
  (∃ i w, Input_init (test_world ∅)
            (test_args (PyStr "H1") false (PyList ["nestle"]) None)
            test_unknown_args = Ok (i, w)
          ∧ Input_x509userproxy_getter (_x509userproxy i) = Ok None)
  ∧ (∃ i w, Input_init
              (test_world (proxy_env "/tmp/x509up_u1000"))
              (test_args (PyStr "H1") false (PyList ["nestle"]) None)
              test_unknown_args = Ok (i, w)
            ∧ Input_x509userproxy_getter (_x509userproxy i)
              = Raise x509_not_set).
Proof.
  split.
  - destruct (proj1 (x509_env_fallback (test_world ∅)
      (test_args (PyStr "H1") false (PyList ["nestle"]) None)
      test_unknown_args ["H1"] "/pkg/lib_scripts/bbh_from_gracedb.py"
      ltac:(vm_compute; reflexivity) ltac:(vm_compute; reflexivity)
      ltac:(vm_compute; reflexivity) ltac:(vm_compute; reflexivity))
      ltac:(vm_compute; reflexivity)) as (_ & i & Hi & _ & Hget).
    exists i. eexists. split; [exact Hi|exact Hget].
  - destruct (proj2 (x509_env_fallback
      (test_world (proxy_env "/tmp/x509up_u1000"))
      (test_args (PyStr "H1") false (PyList ["nestle"]) None)
      test_unknown_args ["H1"] "/pkg/lib_scripts/bbh_from_gracedb.py"
      ltac:(vm_compute; reflexivity) ltac:(vm_compute; reflexivity)
      ltac:(vm_compute; reflexivity) ltac:(vm_compute; reflexivity))
      "/tmp/x509up_u1000"
      ltac:(vm_compute; reflexivity) ltac:(vm_compute; reflexivity)
      ltac:(vm_compute; reflexivity) ltac:(vm_compute; reflexivity)
      ltac:(vm_compute; reflexivity)) as (_ & i & Hi & _ & Hget).
    exists i. eexists. split; [exact Hi|exact Hget].
Defined.

(** ** The job compiler *)

Lemma leaf_Job_update self dag' jobs' pages' objects' dets s x :
  leaf_Job (Dag_update self dag' jobs' pages' objects') dets s x
  = leaf_Job self dets s x.
Proof. reflexivity. Qed.

(** [_create_job] with a credential that reads: the job is stored under a
    fresh reference, added to the dag, and its results page recorded. *)
Lemma create_job_ok self dets s x :
  _x509userproxy (inputs self) = Some x →
  Dag__create_job self (PyList dets) s =
    Ok (length (objects self),
        Dag_update self
          (pycondor.add_job (dag self) (length (objects self)))
          (jobs self)
          (<[run_label (inputs self) dets s
               := run_label (inputs self) dets s +:+ ".html"]>
             (results_pages self))
          (objects self ++ [leaf_Job self dets s x])).
Proof.
  intros Hx. unfold Dag__create_job. rewrite Hx. reflexivity.
Qed.

(** Without a credential attribute no leaf job can be compiled. *)
Lemma create_job_needs_x509 self detectors s :
  _x509userproxy (inputs self) = None →
  ∃ e, Dag__create_job self detectors s = Raise e.
Proof.
  intros Hx. unfold Dag__create_job. rewrite Hx.
  destruct detectors; cbn; eauto.
Qed.

Lemma Dag_eta self :
  Dag_update self (dag self) (jobs self) (results_pages self) (objects self)
  = self.
Proof. by destruct self. Qed.

Lemma Dagman_eta d :
  {| pycondor.dagman_name := pycondor.dagman_name d;
     pycondor.dagman_submit := pycondor.dagman_submit d;
     pycondor.nodes := pycondor.nodes d;
     pycondor.rendered := pycondor.rendered d |} = d.
Proof. by destruct d. Qed.

Lemma create_jobs_loop_ok l : ∀ self x,
  _x509userproxy (inputs self) = Some x →
  create_jobs_loop self l = Ok (after_create_jobs self l x).
Proof.
  induction l as [|job l IH]; intros self x Hx.
  - cbn. unfold after_create_jobs. cbn.
    rewrite !app_nil_r, Dagman_eta, Dag_eta. done.
  - cbn [create_jobs_loop]. rewrite (create_job_ok _ _ _ x Hx). cbn.
    erewrite IH by exact Hx. f_equal.
    unfold after_create_jobs, Dag_update, pycondor.add_job. cbn.
    rewrite length_app. cbn.
    replace (length (objects self) + 1) with (S (length (objects self)))
      by lia.
    rewrite <- !(assoc_L (++)). cbn. reflexivity.
Qed.

(** ** The job-set expander *)

Lemma jobs_inputs_eq i samplers :
  iter (sampler i) = Ok samplers →
  Dag_jobs_inputs i =
    Ok (subset ← detector_subsets i; job_spec subset <$> samplers).
Proof.
  intros Hs. unfold Dag_jobs_inputs, detector_subsets, itertools_product.
  rewrite Hs. cbn. f_equal.
  assert (∀ subsets : list (list string),
    ((λ '(detectors, sampler), job_spec detectors sampler)
       <$> (x ← subsets; y ← samplers; [(x, y)]))
    = (subset ← subsets; job_spec subset <$> samplers)) as Hprod.
  { induction subsets as [|subset subsets IH]; [done|].
    cbn. rewrite fmap_app, IH. f_equal.
    clear. induction samplers as [|s samplers IH]; [done|].
    cbn. by rewrite IH. }
  destruct (coherence_test i); apply Hprod.
Qed.

(** In a product the entry of the [k]-th [x] and the [m]-th [y] stands at
    position [k * length ys + m]: the second index varies fastest. *)
Lemma product_lookup {A B C} (f : A → B → C) (xs : list A) (ys : list B) :
  ∀ k m x y,
    xs !! k = Some x → ys !! m = Some y →
    (x ← xs; f x <$> ys) !! (k * length ys + m) = Some (f x y).
Proof.
  induction xs as [|x0 xs IH]; intros k m x y Hk Hm; [done|].
  rewrite bind_cons. destruct k as [|k].
  - injection Hk as ->. cbn.
    rewrite lookup_app_l by (rewrite length_fmap; by eapply lookup_lt_Some).
    by rewrite list_lookup_fmap, Hm.
  - cbn in Hk.
    rewrite lookup_app_r by (rewrite length_fmap; cbn; lia).
    rewrite length_fmap.
    replace (S k * length ys + m - length ys) with (k * length ys + m)
      by (cbn; lia).
    by apply IH.
Qed.

Lemma product_length {A B C} (f : A → B → C) (xs : list A) (ys : list B) :
  length (x ← xs; f x <$> ys) = length xs * length ys.
Proof.
  induction xs as [|x xs IH]; [done|].
  rewrite bind_cons, length_app, length_fmap, IH. cbn. lia.
Qed.

(** C5, on the code: with the sampler that [parse_args] gives when
    [--sampler] is absent, the string ['dynesty'] and not a list of one
    sampler, the expander does not pair the detector set with the
    configured sampler: it iterates the string and yields one entry per
    character of it. *)
Lemma default_sampler_is_expanded_by_character :
  ∃ i w,
    Input_init (test_world ∅)
      (test_args (PyList ["H1"; "L1"]) false (PyStr "dynesty")
         (Some "/tests/X509.txt"))
      test_unknown_args = Ok (i, w)
    ∧ sampler i = PyStr "dynesty"
    ∧ Dag_jobs_inputs i
      = Ok (job_spec ["H1"; "L1"] <$> ["d"; "y"; "n"; "e"; "s"; "t"; "y"])
    ∧ Dag_jobs_inputs i ≠ Ok [job_spec ["H1"; "L1"] "dynesty"].
Proof.
  eexists _, _. split; [vm_compute; reflexivity|].
  split; [reflexivity|]. split; [vm_compute; reflexivity|].
  intros H. vm_compute in H. discriminate H.
Qed.

(** The expander output is the sequence of (subset, sampler) pairs of
    each subset entry (the full detector set, then under the coherence
    test one singleton per detector, in the normalised order) with each
    element that iterating [Input.sampler] yields, in that order, the
    sampler varying fastest: the pair of the [k]-th subset and the
    [m]-th element stands at position [k * length samplers + m], and
    there are no other entries. *)
Theorem jobs_inputs_is_ordered_product (i : Input) (samplers : list string) :
  iter (sampler i) = Ok samplers →
  ∃ jobs_inputs,
    Dag_jobs_inputs i = Ok jobs_inputs
    ∧ jobs_inputs
      = (subset ← detector_subsets i; job_spec subset <$> samplers)
    ∧ length jobs_inputs = length (detector_subsets i) * length samplers
    ∧ ∀ k m subset sampler,
        detector_subsets i !! k = Some subset →
        samplers !! m = Some sampler →
        jobs_inputs !! (k * length samplers + m)
        = Some (job_spec subset sampler).
Proof.
  intros Hs. eexists. split; [by apply jobs_inputs_eq|].
  split; [done|]. split; [apply product_length|].
  intros k m subset s. apply product_lookup.
Qed.

(** The expansion that [test_jobs_creation] expects. *)
Lemma jobs_inputs_is_ordered_product_witness :
  Dag_jobs_inputs
    (test_inputs ["H1"; "L1"] true (PyList ["nestle"])
       (Some (Some "/tests/X509.txt")))
  = Ok [job_spec ["H1"; "L1"] "nestle";
        job_spec ["H1"] "nestle";
        job_spec ["L1"] "nestle"].
Proof.
  destruct (jobs_inputs_is_ordered_product
    (test_inputs ["H1"; "L1"] true (PyList ["nestle"])
       (Some (Some "/tests/X509.txt")))
    ["nestle"] eq_refl) as (l & Hl & -> & _).
  exact Hl.
Defined.

(** C1, as stated, fails on the code: with one detector and the coherence
    test the expander yields two identical entries for the one sampler;
    nothing is suppressed. *)
Lemma single_detector_coherence_test_yields_two :
  Dag_jobs_inputs
    (test_inputs ["H1"] true (PyList ["nestle"])
       (Some (Some "/tests/X509.txt")))
  = Ok [job_spec ["H1"] "nestle"; job_spec ["H1"] "nestle"].
Proof. reflexivity. Qed.

(** C1, amended: for a configuration with exactly one detector and the
    coherence test, the expander yields every (subset, sampler) entry
    twice, once for the full set and once for the equal singleton: first
    the entries of the full set, one per sampler, then the same entries
    again, twice the number of samplers in all. *)
Theorem single_detector_coherence_test_duplicates
    (i : Input) (d : string) (samplers : list string) :
  _include_detectors i = [d] →
  coherence_test i = true →
  iter (sampler i) = Ok samplers →
  ∃ jobs_inputs,
    Dag_jobs_inputs i = Ok jobs_inputs
    ∧ jobs_inputs
      = (job_spec [d] <$> samplers) ++ (job_spec [d] <$> samplers)
    ∧ length jobs_inputs = 2 * length samplers.
Proof.
  intros Hd Hc Hs. eexists. split; [by apply jobs_inputs_eq|].
  unfold detector_subsets. rewrite Hd, Hc. cbn.
  rewrite app_nil_r. split; [done|].
  rewrite length_app, !length_fmap. lia.
Qed.

(** C1, witness: one detector, two samplers. *)
Lemma single_detector_coherence_test_duplicates_witness :
  ∃ jobs_inputs,
    Dag_jobs_inputs
      (test_inputs ["V1"] true (PyList ["nestle"; "dynesty"])
         (Some (Some "/tests/X509.txt"))) = Ok jobs_inputs
    ∧ jobs_inputs
      = [job_spec ["V1"] "nestle"; job_spec ["V1"] "dynesty";
         job_spec ["V1"] "nestle"; job_spec ["V1"] "dynesty"]
    ∧ length jobs_inputs = 4.
Proof.
  exact (single_detector_coherence_test_duplicates
    (test_inputs ["V1"] true (PyList ["nestle"; "dynesty"])
       (Some (Some "/tests/X509.txt")))
    "V1" ["nestle"; "dynesty"] eq_refl eq_refl eq_refl).
Defined.

(** ** The graph assembler *)

Lemma foldl_add_parent_job (j : pycondor.Job) (l : list nat) :
  foldl pycondor.add_parent j l
  = {| pycondor.name := pycondor.name j;
       pycondor.executable := pycondor.executable j;
       pycondor.error := pycondor.error j;
       pycondor.log := pycondor.log j;
       pycondor.output := pycondor.output j;
       pycondor.submit := pycondor.submit j;
       pycondor.request_memory := pycondor.request_memory j;
       pycondor.request_disk := pycondor.request_disk j;
       pycondor.request_cpus := pycondor.request_cpus j;
       pycondor.getenv := pycondor.getenv j;
       pycondor.universe := pycondor.universe j;
       pycondor.initialdir := pycondor.initialdir j;
       pycondor.notification := pycondor.notification j;
       pycondor.requirements := pycondor.requirements j;
       pycondor.queue := pycondor.queue j;
       pycondor.extra_lines := pycondor.extra_lines j;
       pycondor.arguments := pycondor.arguments j;
       pycondor.retry := pycondor.retry j;
       pycondor.verbose := pycondor.verbose j;
       pycondor.parents := pycondor.parents j ++ l |}.
Proof.
  revert j. induction l as [|p l IH]; intros j.
  - cbn. rewrite app_nil_r. by destruct j.
  - cbn [foldl]. rewrite IH. cbn. by rewrite <- (assoc_L (++)).
Qed.

(** Adding the parents one after the other changes the stored
    aggregation job only, and by all of them. *)
Lemma foldl_add_parent self dag' jobs' pages' objs (l : list nat) :
  ∀ pj,
    foldl (λ self job, add_parent self (length objs) job)
      (Dag_update self dag' jobs' pages' (objs ++ [pj])) l
    = Dag_update self dag' jobs' pages'
        (objs ++ [foldl pycondor.add_parent pj l]).
Proof.
  induction l as [|p l IH]; intros pj; [done|].
  cbn [foldl]. rewrite <- IH. f_equal.
  unfold add_parent. cbn. f_equal.
  replace (length objs) with (length objs + 0) by lia.
  by rewrite alter_app_r.
Qed.

Lemma mapM_cons {A B} (f : A → result B) x l :
  mapM f (x :: l) = y ← f x; k ← mapM f l; Ok (y :: k).
Proof. reflexivity. Qed.

Lemma mapM_deref {B} self (g : pycondor.Job → B) (l : list nat) :
  Forall (λ job, is_Some (objects self !! job)) l →
  mapM (λ job, j ← deref self job; Ok (g j)) l
  = Ok (g <$> omap (λ job, objects self !! job) l).
Proof.
  induction 1 as [|job l [j Hj] _ IH]; [done|].
  rewrite mapM_cons, IH. unfold deref. rewrite Hj. cbn.
  by rewrite Hj.
Qed.

(** [create_postprocessing_jobs] in a state whose leaf references all
    name stored jobs. *)
Lemma postprocessing_ok self jobs_inputs :
  Forall (λ job, is_Some (objects self !! job)) (jobs self) →
  Dag_jobs_inputs (inputs self) = Ok jobs_inputs →
  Dag_create_postprocessing_jobs self
  = Ok (after_postprocessing self jobs_inputs).
Proof.
  intros Hrefs Hji. unfold Dag_create_postprocessing_jobs.
  rewrite (mapM_deref self _ _ Hrefs), Hji. cbn.
  unfold new_Job. cbn. rewrite foldl_add_parent, foldl_add_parent_job.
  reflexivity.
Qed.

(** C6: in a state whose leaf references name stored jobs,
    [create_postprocessing_jobs] creates exactly one job, the aggregation
    job: it is the one object added to the store and the one node added
    to the dag, and its parents are the leaf jobs, all of them and in
    their order, so its parent set is the set of the leaf jobs, whatever
    their number. *)
Theorem postprocessing_job_parents_are_the_leaf_jobs
    (self : Dag) (samplers : list string) :
  Forall (λ job, is_Some (objects self !! job)) (jobs self) →
  iter (sampler (inputs self)) = Ok samplers →
  ∃ self' post_job,
    Dag_create_postprocessing_jobs self = Ok self'
    ∧ objects self' = objects self ++ [post_job]
    ∧ pycondor.nodes (dag self')
      = pycondor.nodes (dag self) ++ [length (objects self)]
    ∧ jobs self' = jobs self
    ∧ pycondor.name post_job = label (inputs self) +:+ "_combine_results"
    ∧ pycondor.parents post_job = jobs self
    ∧ (∀ job, job ∈ pycondor.parents post_job ↔ job ∈ jobs self).
Proof.
  intros Hrefs Hs.
  eexists _, _. split.
  { apply postprocessing_ok; [exact Hrefs|by apply jobs_inputs_eq]. }
  cbn. repeat split; done.
Qed.

(** C6, witness: the three leaf jobs of [test_jobs_creation]. *)
Lemma postprocessing_job_parents_are_the_leaf_jobs_witness :
  ∃ self' post_job,
    Dag_create_postprocessing_jobs
      (after_create_jobs
         (Dag_attributes
            (test_inputs ["H1"; "L1"] true (PyList ["nestle"])
               (Some (Some "/tests/X509.txt"))) kwargs_default)
         [job_spec ["H1"; "L1"] "nestle"; job_spec ["H1"] "nestle";
          job_spec ["L1"] "nestle"]
         (Some "/tests/X509.txt")) = Ok self'
    ∧ objects self' !! 3 = Some post_job
    ∧ pycondor.parents post_job = [0; 1; 2].
Proof.
  destruct (postprocessing_job_parents_are_the_leaf_jobs
    (after_create_jobs
       (Dag_attributes
          (test_inputs ["H1"; "L1"] true (PyList ["nestle"])
             (Some (Some "/tests/X509.txt"))) kwargs_default)
       [job_spec ["H1"; "L1"] "nestle"; job_spec ["H1"] "nestle";
        job_spec ["L1"] "nestle"]
       (Some "/tests/X509.txt"))
    ["nestle"]
    ltac:(repeat constructor; eexists; reflexivity) eq_refl)
    as (self' & post_job & H & Hobjs & _ & _ & _ & Hparents & _).
  exists self', post_job. split; [exact H|]. split; [|exact Hparents].
  rewrite Hobjs. reflexivity.
Defined.

(** C7, as stated, fails on the code: with an empty sampler list no leaf
    job is created, and the construction of the [Dag] still succeeds; the
    aggregation job is the only node of the dag and has no parent. *)
Lemma empty_leaf_list_is_assembled :
  ∃ d post_job,
    Dag_init
      (test_inputs ["H1"] false (PyList []) (Some (Some "/tests/X509.txt")))
      kwargs_default = Ok d
    ∧ jobs d = []
    ∧ objects d = [post_job]
    ∧ pycondor.nodes (dag d) = [0]
    ∧ pycondor.name post_job = "label_combine_results"
    ∧ pycondor.parents post_job = [].
Proof. eexists _, _. split; [vm_compute; reflexivity|]. repeat split. Qed.

(** C7, amended: when the list of leaf jobs is empty, the assembly does
    not fail: [create_postprocessing_jobs] returns, and the aggregation
    job it adds to the dag has no parents. *)
Theorem postprocessing_of_no_leaf_job (self : Dag) (samplers : list string) :
  jobs self = [] →
  iter (sampler (inputs self)) = Ok samplers →
  ∃ self' post_job,
    Dag_create_postprocessing_jobs self = Ok self'
    ∧ objects self' = objects self ++ [post_job]
    ∧ pycondor.nodes (dag self')
      = pycondor.nodes (dag self) ++ [length (objects self)]
    ∧ pycondor.name post_job = label (inputs self) +:+ "_combine_results"
    ∧ pycondor.parents post_job = [].
Proof.
  intros Hjobs Hs.
  eexists _, _. split.
  { apply postprocessing_ok; [by rewrite Hjobs|by apply jobs_inputs_eq]. }
  repeat (split; [reflexivity|]). exact Hjobs.
Qed.

(** C7, witness: a [Dag] with an empty sampler list and no job yet. *)
Lemma postprocessing_of_no_leaf_job_witness :
  ∃ self' post_job,
    Dag_create_postprocessing_jobs
      (Dag_attributes
         (test_inputs ["H1"] false (PyList [])
            (Some (Some "/tests/X509.txt"))) kwargs_default) = Ok self'
    ∧ objects self' = [post_job]
    ∧ pycondor.parents post_job = [].
Proof.
  destruct (postprocessing_of_no_leaf_job
    (Dag_attributes
       (test_inputs ["H1"] false (PyList [])
          (Some (Some "/tests/X509.txt"))) kwargs_default)
    [] eq_refl eq_refl) as (self' & post_job & H & Hobjs & _ & _ & Hpar).
  exists self', post_job. split; [exact H|]. split; [exact Hobjs|exact Hpar].
Defined.

(** ** The whole construction *)

Lemma omap_lookup_seq {A} (l : list A) : ∀ pre post,
  omap (λ r, (pre ++ l ++ post) !! r) (seq (length pre) (length l)) = l.
Proof.
  induction l as [|a l IH]; intros pre post; [done|].
  cbn [length seq omap list_omap].
  rewrite lookup_app_r, Nat.sub_diag by lia. cbn. f_equal.
  specialize (IH (pre ++ [a]) post).
  rewrite length_app, <- (assoc_L (++)) in IH. cbn in IH.
  by rewrite Nat.add_1_r in IH.
Qed.

Lemma lookup_seq_is_Some {A} (l : list A) :
  Forall (λ r, is_Some (l !! r)) (seq 0 (length l)).
Proof.
  apply Forall_forall. intros r [_ Hr]%elem_of_seq.
  apply lookup_lt_is_Some. lia.
Qed.

(** [Dag.__init__] returns whenever the credential reads and the sampler
    can be iterated, in the state given by the three steps. *)
Lemma Dag_init_ok i kw x samplers :
  _x509userproxy i = Some x →
  iter (sampler i) = Ok samplers →
  Dag_init i kw =
    Ok (Dag_build_submit
          (after_postprocessing
             (after_create_jobs (Dag_attributes i kw)
                (expansion i samplers) x)
             (expansion i samplers))).
Proof.
  intros Hx Hs. unfold Dag_init, Dag_create_jobs. cbn zeta.
  change (inputs (Dag_attributes i kw)) with i.
  rewrite (jobs_inputs_eq _ _ Hs). cbn [mbind result_bind].
  rewrite (create_jobs_loop_ok _ _ x) by exact Hx. cbn [mbind result_bind].
  rewrite (postprocessing_ok _ (expansion i samplers)).
  - reflexivity.
  - cbn. rewrite <- (length_fmap
      (λ job, leaf_Job (Dag_attributes i kw) (job_input.detectors job)
                (job_input.sampler job) x)).
    apply lookup_seq_is_Some.
  - by apply jobs_inputs_eq.
Qed.

(** The leaf jobs of the constructed [Dag] are the jobs compiled from the
    expander's entries, in their order. *)
Lemma Dag_init_leaf_jobs i kw x samplers d :
  _x509userproxy i = Some x →
  iter (sampler i) = Ok samplers →
  Dag_init i kw = Ok d →
  leaf_jobs d =
    (λ job, leaf_Job (Dag_attributes i kw) (job_input.detectors job)
              (job_input.sampler job) x) <$> expansion i samplers.
Proof.
  intros Hx Hs. rewrite (Dag_init_ok _ _ _ _ Hx Hs). intros [= <-].
  unfold leaf_jobs. cbn.
  rewrite <- (length_fmap
    (λ job, leaf_Job (Dag_attributes i kw) (job_input.detectors job)
              (job_input.sampler job) x)).
  apply (omap_lookup_seq _ []).
Qed.

(** Every leaf job carries the memory and disk requests of the [Dag]; as
    its cpus request it carries the disk request. *)
Lemma leaf_jobs_requests i kw d j :
  Dag_init i kw = Ok d →
  j ∈ leaf_jobs d →
  pycondor.request_memory j = kw_request_memory kw
  ∧ pycondor.request_disk j = kw_request_disk kw
  ∧ pycondor.request_cpus j = kw_request_disk kw.
Proof.
  intros Hd Hj.
  destruct (_x509userproxy i) as [x|] eqn:Hx; cycle 1.
  { unfold Dag_init, Dag_create_jobs in Hd. cbn zeta in Hd.
    change (inputs (Dag_attributes i kw)) with i in Hd.
    destruct (Dag_jobs_inputs i) as [l|e] eqn:Hl; [|done].
    cbn [mbind result_bind] in Hd.
    destruct l as [|job l].
    - cbn [create_jobs_loop mbind result_bind] in Hd.
      pose proof Hl as Hl'. unfold Dag_jobs_inputs in Hl'.
      destruct (iter (sampler i)) as [samplers|] eqn:Hs; [|done].
      rewrite (postprocessing_ok _ []) in Hd by done.
      injection Hd as <-. by apply elem_of_nil in Hj.
    - cbn [create_jobs_loop] in Hd.
      destruct (create_job_needs_x509 (Dag_attributes i kw)
        (PyList (job_input.detectors job)) (job_input.sampler job) Hx)
        as [e He].
      by rewrite He in Hd. }
  destruct (iter (sampler i)) as [samplers|e] eqn:Hs; cycle 1.
  { unfold Dag_init, Dag_create_jobs, Dag_jobs_inputs in Hd.
    cbn zeta in Hd. change (inputs (Dag_attributes i kw)) with i in Hd.
    by rewrite Hs in Hd. }
  rewrite (Dag_init_leaf_jobs _ _ _ _ _ Hx Hs Hd) in Hj.
  apply list_elem_of_fmap in Hj as (job & -> & _). done.
Qed.

(** C8, on the code: the leaf job of a [Dag] built with a memory request
    of 4GB, a disk request of 10GB and a request of 4 cpus carries the
    memory and the disk request, and the disk request as its cpus
    request. *)
Lemma request_cpus_is_the_disk_request :
  ∃ d,
    Dag_init
      (test_inputs ["H1"] false (PyList ["nestle"])
         (Some (Some "/tests/X509.txt")))
      {| kw_request_memory := PyStr "4GB";
         kw_request_disk := PyStr "10GB";
         kw_request_cpus := PyInt 4;
         kw_getenv := PyBool true;
         kw_universe := PyStr "vanilla";
         kw_initialdir := PyNone;
         kw_notification := PyStr "never";
         kw_requirements := PyNone;
         kw_retry := PyNone;
         kw_verbose := PyInt 0 |} = Ok d
    ∧ (λ j, (pycondor.request_memory j, pycondor.request_disk j,
             pycondor.request_cpus j)) <$> leaf_jobs d
      = [(PyStr "4GB", PyStr "10GB", PyStr "10GB")].
Proof. eexists. split; [vm_compute; reflexivity|reflexivity]. Qed.

(** ** The argument string *)

Lemma join_cons sep x y l :
  Py.join sep (x :: y :: l) = x +:+ sep +:+ Py.join sep (y :: l).
Proof. reflexivity. Qed.

Lemma join_app sep l1 l2 :
  l1 ≠ [] → l2 ≠ [] →
  Py.join sep (l1 ++ l2) = Py.join sep l1 +:+ sep +:+ Py.join sep l2.
Proof.
  intros H1 H2. induction l1 as [|x [|y l1] IH]; [done| |].
  - destruct l2 as [|z l2]; [done|]. reflexivity.
  - change ((x :: y :: l1) ++ l2) with (x :: y :: (l1 ++ l2)).
    rewrite !join_cons, append_assoc, append_assoc.
    do 2 f_equal. by apply IH.
Qed.

(** The loop over the detectors appends one [--detectors] pair each. *)
Lemma foldl_detectors (detectors : list string) : ∀ pre,
  pre ≠ [] →
  foldl (λ arguments detector, arguments +:+ " --detectors " +:+ detector)
    (Py.join " " pre) detectors
  = Py.join " " (pre ++ (detector ← detectors; ["--detectors"; detector])).
Proof.
  induction detectors as [|d detectors IH]; intros pre Hpre.
  - cbn. by rewrite app_nil_r.
  - cbn [foldl]. rewrite bind_cons.
    rewrite (assoc_L (++) pre). rewrite <- IH by (by destruct pre).
    f_equal. rewrite join_app by done. reflexivity.
Qed.

Lemma leaf_arguments_tokens i detectors sampler :
  leaf_arguments i detectors sampler
  = Py.join " " (leaf_tokens i detectors sampler)
    +:+ " " +:+ Py.join " " (unknown_args i).
Proof.
  unfold leaf_arguments, leaf_tokens. cbn zeta.
  change ("--ini " +:+ ini i) with (Py.join " " ["--ini"; ini i]).
  rewrite foldl_detectors by done.
  rewrite (assoc_L (++) ["--ini"; ini i]).
  rewrite (join_app _ (_ ++ _)) by (done || by destruct detectors).
  rewrite !join_cons.
  change (Py.join " " ["$(Process)"]) with "$(Process)".
  rewrite !append_assoc. reflexivity.
Qed.

Lemma split_space_join_app l rest :
  l ≠ [] →
  Forall (λ s, has_space s = false) l →
  split_space (Py.join " " l +:+ " " +:+ rest) = l ++ split_space rest.
Proof.
  intros Hne Hl. induction Hl as [|s l Hs Hl IH]; [done|].
  destruct l as [|s' l].
  - by apply split_space_cons_field.
  - rewrite join_cons, !append_assoc.
    rewrite split_space_cons_field by done.
    by rewrite IH.
Qed.

(** C9: the argument string that [_create_job] gives the job is, joined
    by single spaces, [--ini] and the configuration file, one
    [--detectors] pair per detector in their order, [--sampler] and the
    sampler, [--cluster $(Cluster)], [--process $(Process)], and then the
    passthrough arguments as they are and in their order. When no token
    holds a space and there is a passthrough argument, splitting the
    string at the spaces gives back exactly these tokens. *)
Theorem create_job_arguments
    (self : Dag) (detectors : list string) (sampler : string)
    (x : option string) :
  _x509userproxy (inputs self) = Some x →
  ∃ job self' j,
    Dag__create_job self (PyList detectors) sampler = Ok (job, self')
    ∧ objects self' !! job = Some j
    ∧ pycondor.arguments j
      = Py.join " "
          (["--ini"; ini (inputs self)]
           ++ (detector ← detectors; ["--detectors"; detector])
           ++ ["--sampler"; sampler; "--cluster"; "$(Cluster)";
               "--process"; "$(Process)"])
        +:+ " " +:+ Py.join " " (unknown_args (inputs self))
    ∧ (unknown_args (inputs self) ≠ [] →
       Forall (λ s, has_space s = false)
         (leaf_tokens (inputs self) detectors sampler
          ++ unknown_args (inputs self)) →
       split_space (pycondor.arguments j)
       = leaf_tokens (inputs self) detectors sampler
         ++ unknown_args (inputs self)).
Proof.
  intros Hx. eexists _, _, _. split; [by apply create_job_ok|].
  split.
  { cbn. rewrite lookup_app_r, Nat.sub_diag by lia. reflexivity. }
  cbn [pycondor.arguments leaf_Job].
  split; [apply leaf_arguments_tokens|].
  intros Hne [Htok Hunk]%Forall_app.
  rewrite leaf_arguments_tokens, split_space_join_app by done.
  by rewrite split_space_join.
Qed.

(** C9, witness: the job of both detectors of the fixture of the test,
    with its passthrough arguments [--argument value]. *)
Lemma create_job_arguments_witness :
  ∃ job self' j,
    Dag__create_job
      (Dag_attributes
         (test_inputs ["H1"; "L1"] false (PyList ["nestle"])
            (Some (Some "/tests/X509.txt"))) kwargs_default)
      (PyList ["H1"; "L1"]) "nestle" = Ok (job, self')
    ∧ objects self' !! job = Some j
    ∧ split_space (pycondor.arguments j)
      = ["--ini"; "file.ini"; "--detectors"; "H1"; "--detectors"; "L1";
         "--sampler"; "nestle"; "--cluster"; "$(Cluster)";
         "--process"; "$(Process)"; "--argument"; "value"].
Proof.
  destruct (create_job_arguments
    (Dag_attributes
       (test_inputs ["H1"; "L1"] false (PyList ["nestle"])
          (Some (Some "/tests/X509.txt"))) kwargs_default)
    ["H1"; "L1"] "nestle" (Some "/tests/X509.txt") eq_refl)
    as (job & self' & j & H & Hj & _ & Hsplit).
  exists job, self', j. split; [exact H|]. split; [exact Hj|].
  apply Hsplit; [discriminate|].
  repeat constructor.
Defined.

(** ** The names of the leaf jobs *)

Lemma concat_cons d l : Py.concat (d :: l) = d +:+ Py.concat l.
Proof.
  destruct l as [|d' l]; [by rewrite append_nil_r|reflexivity].
Qed.

(** A known detector is a letter other than the underscore, then [1]. *)
Lemma known_shape d :
  d ∈ Input_known_detectors →
  ∃ c, d = String c (String "1" EmptyString) ∧ c ≠ "_"%char.
Proof.
  unfold Input_known_detectors. rewrite !elem_of_cons, elem_of_nil.
  intros [->|[->|[->|[]]]]; eexists; split; try reflexivity; discriminate.
Qed.

Lemma concat_sep_inj dets1 : ∀ dets2 s1 s2,
  Forall (λ d, d ∈ Input_known_detectors) dets1 →
  Forall (λ d, d ∈ Input_known_detectors) dets2 →
  Py.concat dets1 +:+ "_" +:+ s1 = Py.concat dets2 +:+ "_" +:+ s2 →
  dets1 = dets2 ∧ s1 = s2.
Proof.
  induction dets1 as [|d1 dets1 IH]; intros dets2 s1 s2 H1 H2 Heq.
  - destruct dets2 as [|d2 dets2].
    + change (String "_" s1 = String "_" s2) in Heq. by simplify_eq.
    + apply Forall_cons in H2 as [(c & -> & Hc)%known_shape _].
      rewrite concat_cons, append_assoc, !append_cons in Heq.
      change (String "_" s1 = String c (String "1"
                (Py.concat dets2 +:+ "_" +:+ s2))) in Heq.
      by simplify_eq.
  - apply Forall_cons in H1 as [(c1 & -> & Hc1)%known_shape H1].
    destruct dets2 as [|d2 dets2].
    + rewrite concat_cons, append_assoc, !append_cons in Heq.
      change (String c1 (String "1" (Py.concat dets1 +:+ "_" +:+ s1))
              = String "_" s2) in Heq.
      by simplify_eq.
    + apply Forall_cons in H2 as [(c2 & -> & Hc2)%known_shape H2].
      rewrite !concat_cons, !append_assoc, !append_cons in Heq.
      change (String c1 (String "1" (Py.concat dets1 +:+ "_" +:+ s1))
              = String c2 (String "1" (Py.concat dets2 +:+ "_" +:+ s2)))
        in Heq.
      injection Heq as -> Heq.
      destruct (IH _ _ _ H1 H2 Heq) as [-> ->]. done.
Qed.

(** Two leaf job names of one [Input] are equal only for the same
    detectors and the same sampler. *)
Lemma run_label_inj i dets1 s1 dets2 s2 :
  Forall (λ d, d ∈ Input_known_detectors) dets1 →
  Forall (λ d, d ∈ Input_known_detectors) dets2 →
  run_label i dets1 s1 = run_label i dets2 s2 →
  dets1 = dets2 ∧ s1 = s2.
Proof.
  intros H1 H2 Heq. unfold run_label in Heq.
  apply (inj (String.app (label i))) in Heq.
  apply (inj (String.app "_")) in Heq.
  by eapply concat_sep_inj.
Qed.

Lemma detector_subsets_known i subset :
  Forall (λ d, d ∈ Input_known_detectors) (_include_detectors i) →
  subset ∈ detector_subsets i →
  Forall (λ d, d ∈ Input_known_detectors) subset.
Proof.
  intros Hk. unfold detector_subsets.
  rewrite elem_of_cons. intros [->|Hin]; [done|].
  destruct (coherence_test i); [|by apply elem_of_nil in Hin].
  apply list_elem_of_fmap in Hin as (d & -> & Hd).
  apply Forall_singleton. by eapply Forall_forall in Hk.
Qed.

Lemma detector_subsets_NoDup i :
  (coherence_test i = true →
   NoDup (_include_detectors i) ∧ length (_include_detectors i) ≠ 1) →
  NoDup (detector_subsets i).
Proof.
  intros Hc. unfold detector_subsets.
  destruct (coherence_test i); [|apply NoDup_singleton].
  destruct (Hc eq_refl) as [Hnd Hlen].
  apply NoDup_cons. split.
  - intros (d & Heq & _)%list_elem_of_fmap. by rewrite Heq in Hlen.
  - apply NoDup_fmap_2; [by intros ?? [= ->]|done].
Qed.

Lemma expansion_NoDup i samplers :
  NoDup (detector_subsets i) → NoDup samplers →
  NoDup (expansion i samplers).
Proof.
  intros Hsub Hs. unfold expansion. apply NoDup_bind; [| |done].
  - intros x1 x2 y _ _ (? & -> & _)%list_elem_of_fmap
      (? & [= -> _] & _)%list_elem_of_fmap. done.
  - intros subset _. apply NoDup_fmap_2; [by intros ?? [= ->]|done].
Qed.

Lemma expansion_elem i samplers job :
  job ∈ expansion i samplers →
  job_input.detectors job ∈ detector_subsets i.
Proof.
  unfold expansion. rewrite list_elem_of_bind.
  intros (subset & (s & -> & _)%list_elem_of_fmap & Hsub). done.
Qed.

(** C3, as stated, fails on the code: with one detector and the
    coherence test the two leaf jobs compiled for the one sampler have
    the same name. *)
Lemma single_detector_coherence_test_names_clash :
  ∃ d,
    Dag_init
      (test_inputs ["H1"] true (PyList ["nestle"])
         (Some (Some "/tests/X509.txt")))
      kwargs_default = Ok d
    ∧ pycondor.name <$> leaf_jobs d
      = ["label_H1_nestle"; "label_H1_nestle"].
Proof. eexists. split; [vm_compute; reflexivity|reflexivity]. Qed.

(** C3, amended: for an [Input] whose detectors are known detectors and
    whose credential reads, if no sampler is listed twice and, under the
    coherence test, the detector list has no repeated detector and is not
    a single detector, then the construction of the [Dag] returns, it
    compiles one leaf job per pair of a subset entry and a sampler, and
    the names of the leaf jobs are pairwise distinct. *)
Theorem leaf_job_names_distinct
    (i : Input) (kw : kwargs) (x : option string) (samplers : list string) :
  Forall (λ d, d ∈ Input_known_detectors) (_include_detectors i) →
  (coherence_test i = true →
   NoDup (_include_detectors i) ∧ length (_include_detectors i) ≠ 1) →
  _x509userproxy i = Some x →
  iter (sampler i) = Ok samplers →
  NoDup samplers →
  ∃ d,
    Dag_init i kw = Ok d
    ∧ length (leaf_jobs d) = length (detector_subsets i) * length samplers
    ∧ NoDup (pycondor.name <$> leaf_jobs d).
Proof.
  intros Hknown Hcoh Hx Hs Hnd.
  eexists. split; [by apply Dag_init_ok|].
  rewrite (Dag_init_leaf_jobs i kw x samplers _ Hx Hs)
    by (by apply Dag_init_ok).
  split; [rewrite length_fmap; apply product_length|].
  rewrite <- list_fmap_compose.
  apply NoDup_fmap_2_strong.
  - intros [dets1 s1] [dets2 s2] Hin1%expansion_elem Hin2%expansion_elem Heq.
    cbn in Heq, Hin1, Hin2.
    apply run_label_inj in Heq as [-> ->];
      [done|by eapply detector_subsets_known..].
  - apply expansion_NoDup; [by apply detector_subsets_NoDup|done].
Qed.

(** C3, witness: two detectors under the coherence test, two samplers. *)
Lemma leaf_job_names_distinct_witness :
  ∃ d,
    Dag_init
      (test_inputs ["H1"; "L1"] true (PyList ["nestle"; "dynesty"])
         (Some (Some "/tests/X509.txt")))
      kwargs_default = Ok d
    ∧ length (leaf_jobs d) = 6
    ∧ NoDup (pycondor.name <$> leaf_jobs d).
Proof.
  exact (leaf_job_names_distinct
    (test_inputs ["H1"; "L1"] true (PyList ["nestle"; "dynesty"])
       (Some (Some "/tests/X509.txt")))
    kwargs_default (Some "/tests/X509.txt") ["nestle"; "dynesty"]
    ltac:(compute_done)
    ltac:(intros _; split; [compute_done|discriminate])
    eq_refl eq_refl
    ltac:(compute_done)).
Defined.

(** ** The job graph as a whole *)

(** For an [Input] whose credential reads and whose sampler can be
    iterated, the construction of the [Dag] returns a two-layer graph:
    the nodes of the dag are the leaf jobs, one per entry of the expander
    and in its order, followed by the aggregation job; the parents of the
    aggregation job are all the leaf jobs; and the dag has been built, and
    submitted exactly when [submit] is set. *)
Theorem Dag_init_graph
    (i : Input) (kw : kwargs) (x : option string) (samplers : list string) :
  _x509userproxy i = Some x →
  iter (sampler i) = Ok samplers →
  let n := length (expansion i samplers) in
  ∃ d post_job,
    Dag_init i kw = Ok d
    ∧ jobs d = seq 0 n
    ∧ pycondor.nodes (dag d) = seq 0 n ++ [n]
    ∧ length (objects d) = S n
    ∧ leaf_jobs d
      = (λ job, leaf_Job (Dag_attributes i kw) (job_input.detectors job)
                  (job_input.sampler job) x) <$> expansion i samplers
    ∧ objects d !! n = Some post_job
    ∧ pycondor.parents post_job = jobs d
    ∧ pycondor.rendered (dag d)
      = (if submit i then pycondor.BuiltAndSubmitted else pycondor.Built).
Proof.
  intros Hx Hs n.
  pose proof (Dag_init_ok i kw x samplers Hx Hs) as Hd.
  eexists _, _. split; [exact Hd|].
  split; [reflexivity|].
  split; [cbn; by rewrite length_fmap|].
  split; [cbn; rewrite length_app, length_fmap; cbn; lia|].
  split; [by eapply Dag_init_leaf_jobs|].
  split.
  { cbn. rewrite lookup_app_r by (by rewrite length_fmap).
    rewrite length_fmap. subst n. rewrite Nat.sub_diag. reflexivity. }
  split; reflexivity.
Qed.

(** The graph of [test_jobs_creation]. *)
Lemma Dag_init_graph_witness :
  ∃ d post_job,
    Dag_init
      (test_inputs ["H1"; "L1"] true (PyList ["nestle"])
         (Some (Some "/tests/X509.txt"))) kwargs_default = Ok d
    ∧ pycondor.name <$> leaf_jobs d
      = ["label_H1L1_nestle"; "label_H1_nestle"; "label_L1_nestle"]
    ∧ pycondor.nodes (dag d) = [0; 1; 2; 3]
    ∧ objects d !! 3 = Some post_job
    ∧ pycondor.parents post_job = [0; 1; 2].
Proof.
  destruct (Dag_init_graph
    (test_inputs ["H1"; "L1"] true (PyList ["nestle"])
       (Some (Some "/tests/X509.txt")))
    kwargs_default (Some "/tests/X509.txt") ["nestle"] eq_refl eq_refl)
    as (d & post_job & Hd & Hjobs & Hnodes & _ & Hleaf & Hpost & Hpar & _).
  exists d, post_job. split; [exact Hd|].
  split; [rewrite Hleaf; reflexivity|].
  split; [exact Hnodes|]. split; [exact Hpost|].
  rewrite Hpar. exact Hjobs.
Defined.

(** ** Detector validation *)

Lemma check_known_raises known l :
  Exists (.∉ known) l →
  ∃ element,
    element ∈ l ∧ (element ∉ known)
    ∧ check_known known l = Raise (unknown_detector known element).
Proof.
  induction l as [|d l IH]; intros Hex; [by apply Exists_nil in Hex|].
  cbn [check_known]. unfold contains.
  destruct (decide (d ∈ known)) as [Hd|Hd].
  - rewrite bool_decide_eq_true_2 by done.
    apply Exists_cons in Hex as [Hex|Hex]; [done|].
    destruct (IH Hex) as (element & Hin & Hout & Hraise).
    exists element. split; [by right|done].
  - rewrite bool_decide_eq_false_2 by done.
    exists d. split; [by left|done].
Qed.

(** A detector token of an ASCII string that, uppercased, is not in the
    known detectors list makes the [include_detectors] setter, and with
    it the construction of the [Input], fail with a [ValueError] that
    names such a token, uppercased, and the list. *)
Theorem unknown_detector_is_fatal
    (w : Os.world) (args : Args) (unknown : list string)
    (s : string) :
  args_include_detectors args = PyStr s →
  is_ascii s = true →
  Exists (λ d, ¬ (upper d ∈ Input_known_detectors)) (split_space s) →
  ∃ token,
    token ∈ split_space s
    ∧ (upper token ∉ Input_known_detectors)
    ∧ Input_include_detectors_setter Input_known_detectors (PyStr s)
      = Raise (unknown_detector Input_known_detectors (upper token))
    ∧ Input_init w args unknown
      = Raise (unknown_detector Input_known_detectors (upper token)).
Proof.
  intros Hargs _ Hex.
  assert (Exists (.∉ Input_known_detectors)
            (upper <$> Py.sort (split_space s))) as Hex'.
  { apply Exists_fmap. by rewrite sort_perm. }
  destruct (check_known_raises _ _ Hex')
    as (element & (token & -> & Hin)%list_elem_of_fmap & Hout & Hraise).
  rewrite sort_perm in Hin.
  assert (Input_include_detectors_setter Input_known_detectors (PyStr s)
          = Raise (unknown_detector Input_known_detectors (upper token)))
    as Hset.
  { unfold Input_include_detectors_setter, Input__split_string_by_space.
    cbn. by rewrite Hraise. }
  exists token. split; [done|]. split; [done|]. split; [done|].
  unfold Input_init, Input_outdir_setter. by rewrite Hargs, Hset.
Qed.

(** The fixture of the test with the unknown detector [K1]. *)
Lemma unknown_detector_is_fatal_witness :
  ∃ token,
    Input_init (test_world ∅)
      (test_args (PyStr "H1 K1") false (PyList ["nestle"])
         (Some "/tests/X509.txt"))
      test_unknown_args
    = Raise (unknown_detector Input_known_detectors (upper token)).
Proof.
  destruct (unknown_detector_is_fatal (test_world ∅)
    (test_args (PyStr "H1 K1") false (PyList ["nestle"])
       (Some "/tests/X509.txt"))
    test_unknown_args "H1 K1" eq_refl eq_refl ltac:(compute_done))
    as (token & _ & _ & _ & H).
  exists token. exact H.
Defined.

(** * Further properties of [main.py] *)

(** ** The executable *)

(** The [executable] setter tries the path as given, then the path in the
    library of scripts, then that path with [.py]; the first that names
    an existing file is the result, which therefore is an existing file
    and resolves to itself; with none of the three it raises. *)
Theorem executable_setter_resolution (w : Os.world) (executable : string) :
  let lib := library_path w executable in
  match Input_executable_setter w executable with
  | Ok p =>
      Os.isfile w p = true
      ∧ Input_executable_setter w p = Ok p
      ∧ (p = executable
         ∨ (Os.isfile w executable = false
            ∧ (p = lib
               ∨ (Os.isfile w lib = false ∧ p = lib +:+ ".py"))))
  | Raise e =>
      e = ValueError "Unable to identify executable"
      ∧ Os.isfile w executable = false
      ∧ Os.isfile w lib = false
      ∧ Os.isfile w (lib +:+ ".py") = false
  end.
Proof.
  intros lib. unfold Input_executable_setter.
  fold (library_path w executable). fold lib.
  assert (∀ p, Os.isfile w p = true →
            (if Os.isfile w p then Ok p
             else if Os.isfile w (library_path w p) then Ok (library_path w p)
             else if Os.isfile w (library_path w p +:+ ".py")
                  then Ok (library_path w p +:+ ".py")
                  else Raise (ValueError "Unable to identify executable"))
            = Ok p) as Hre by (by intros p ->).
  destruct (Os.isfile w executable) eqn:H1; [by auto|].
  destruct (Os.isfile w lib) eqn:H2; [by auto 10|].
  destruct (Os.isfile w (lib +:+ ".py")) eqn:H3; [by auto 10|done].
Qed.

(** ** Paths *)

Lemma split_path_cons s : ∃ comp comps, Os.split_path s = comp :: comps.
Proof.
  induction s as [|c s (comp & comps & IH)]; simpl; [eauto|].
  destruct (Ascii.eqb c "/"); [eauto|]. rewrite IH. eauto.
Qed.

(** [(a + '/' + b).split('/') = a.split('/') + b.split('/')] *)
Lemma split_path_app_sep a b :
  Os.split_path (a +:+ "/" +:+ b) = Os.split_path a ++ Os.split_path b.
Proof.
  induction a as [|c a IH]; [done|].
  rewrite append_cons. simpl. rewrite IH.
  destruct (Ascii.eqb c "/"); [done|].
  by destruct (split_path_cons a) as (comp & comps & ->).
Qed.

Lemma ends_with_sep_inv a :
  Os.ends_with_sep a = true → ∃ a', a = a' +:+ "/".
Proof.
  induction a as [|c a IH]; [done|]. simpl.
  destruct a as [|c' a].
  - intros ->%Ascii.eqb_eq. by exists "".
  - intros (a' & ->)%IH. by exists (String c a').
Qed.

(** A component holds no separator. *)
Lemma split_path_components s :
  Forall (λ comp, Os.split_path comp = [comp]) (Os.split_path s).
Proof.
  induction s as [|c s IH]; simpl; [by constructor|].
  destruct (Ascii.eqb c "/") eqn:Hc; [by constructor|].
  destruct (Os.split_path s) as [|comp comps].
  { constructor; [|done]. simpl. by rewrite Hc. }
  apply Forall_cons in IH as [Hcomp IH]. constructor; [|done].
  simpl. by rewrite Hc, Hcomp.
Qed.

Lemma split_path_single s comp : Os.split_path s = [comp] → comp = s.
Proof.
  revert comp. induction s as [|c s IH]; intros comp; simpl.
  { by intros [= <-]. }
  destruct (Ascii.eqb c "/").
  - destruct (split_path_cons s) as (? & ? & ->). done.
  - destruct (split_path_cons s) as (comp' & comps & Hs).
    rewrite Hs in *. destruct comps; [|done].
    intros [= <-]. by rewrite (IH comp').
Qed.

Lemma basename_go_last p : ∀ cur,
  Os.basename_go cur p
  = match Os.split_path p with
    | [_] => cur
    | comps => default "" (last comps)
    end.
Proof.
  induction p as [|c p IH]; intros cur; simpl; [done|].
  destruct (Ascii.eqb c "/").
  - rewrite IH. destruct (split_path_cons p) as (comp & comps & Hp).
    rewrite Hp. destruct comps; [|done].
    simpl. by rewrite (split_path_single p comp).
  - rewrite IH. destruct (split_path_cons p) as (comp & comps & Hp).
    rewrite Hp. by destruct comps.
Qed.

(** [os.path.basename(p)] is the last component of [p]. *)
Lemma basename_last p : last (Os.split_path p) = Some (Os.basename p).
Proof.
  unfold Os.basename. rewrite basename_go_last.
  destruct (split_path_cons p) as (comp & comps & Hp).
  rewrite Hp. destruct comps as [|comp' comps].
  - simpl. by rewrite (split_path_single p comp).
  - destruct (last (comp :: comp' :: comps)) eqn:Hl; [done|].
    by apply last_None in Hl.
Qed.

Lemma normalise_snoc comp : ∀ comps new_comps,
  comp ∉ [""; "."; ".."] →
  Os.normalise true new_comps (comps ++ [comp])
  = Os.normalise true new_comps comps ++ [comp].
Proof.
  intros comps new_comps Hcomp.
  rewrite !not_elem_of_cons in Hcomp. destruct Hcomp as (H1 & H2 & H3 & _).
  revert new_comps. induction comps as [|c comps IH]; intros new_comps.
  - simpl. rewrite bool_decide_eq_false_2 by (by intros [?|?]).
    by rewrite bool_decide_eq_true_2 by (by left).
  - simpl. repeat case_bool_decide; apply IH.
Qed.

Lemma split_path_join a b :
  Os.starts_with_sep b = false →
  ∃ comps, Os.split_path (Os.join a b) = comps ++ Os.split_path b.
Proof.
  intros Hb. unfold Os.join. rewrite Hb.
  destruct (String.eqb_spec a "") as [->|_]; [by exists []|]. simpl.
  destruct (Os.ends_with_sep a) eqn:Ha.
  - apply ends_with_sep_inv in Ha as (a' & ->).
    rewrite append_assoc, split_path_app_sep. eauto.
  - rewrite split_path_app_sep. eauto.
Qed.

Lemma split_path_absolute w p :
  ∃ comps, Os.split_path (Os.absolute w p) = comps ++ Os.split_path p.
Proof.
  unfold Os.absolute. destruct (Os.starts_with_sep p) eqn:Hp.
  - by exists [].
  - by apply split_path_join.
Qed.

(** The names down to a path end in its last component, when that is
    a name. *)
Lemma canonical_last w p comp :
  last (Os.split_path p) = Some comp →
  comp ∉ [""; "."; ".."] →
  ∃ names, Os.canonical w p = names ++ [comp].
Proof.
  intros (comps & Hp)%last_Some Hcomp.
  destruct (split_path_absolute w p) as (pre & Habs).
  unfold Os.canonical.
  rewrite Habs, Hp, app_assoc, normalise_snoc by done. eauto.
Qed.

(** A regular file and the hidden file of its base name in any
    directory are never the same file. *)
Lemma hidden_copy_is_another_file w outdir src :
  Os.isfile w src = true →
  Os.canonical w src
  ≠ Os.canonical w (Os.join outdir ("." +:+ Os.basename src)).
Proof.
  intros (_ & _ & Hdir)%isfile_IsFile%stat_IsFile.
  unfold Os.names_a_directory in Hdir.
  rewrite basename_last in Hdir. apply bool_decide_eq_false in Hdir.
  set (b := Os.basename src) in *.
  destruct (canonical_last w src b (basename_last src) Hdir)
    as (names & ->).
  assert (Os.split_path b = [b]) as Hb.
  { pose proof (split_path_components src) as Hall.
    rewrite Forall_forall in Hall. apply Hall.
    pose proof (basename_last src) as (? & ->)%last_Some.
    apply elem_of_app. right. by left. }
  assert (last (Os.split_path (Os.join outdir ("." +:+ b)))
          = Some ("." +:+ b)) as Hlast.
  { destruct (split_path_join outdir ("." +:+ b) eq_refl) as (pre & ->).
    change (Os.split_path ("." +:+ b))
      with (match Os.split_path b with
            | [] => ["."]
            | comp :: comps => String "." comp :: comps
            end).
    rewrite Hb. by rewrite last_snoc. }
  destruct (canonical_last w _ _ Hlast) as (names' & ->).
  { intros Hin. apply Hdir. rewrite !elem_of_cons in Hin |- *.
    change ("." +:+ b) with (String "." b) in Hin.
    destruct Hin as [Hin|[Hin|[Hin|Hin]]];
      [done|injection Hin; auto|injection Hin; auto|by apply elem_of_nil in Hin]. }
  intros [_ Heq]%app_inj_tail.
  assert (String.length b = String.length ("." +:+ b)) as Hlen
    by by rewrite <- Heq.
  change ("." +:+ b) with (String "." b) in Hlen. simpl in Hlen. lia.
Qed.

(** ** The credential, copied *)

Lemma writable_find w p :
  Os.writable w p = true →
  p ≠ "" ∧ Os.names_a_directory p = false
  ∧ (Os.find (Os.canonical w p) (Os.root w) = Os.IsFile
     ∨ Os.find (Os.canonical w p) (Os.root w) = Os.Absent).
Proof.
  unfold Os.writable, Os.stat. destruct (String.eqb_spec p ""); [done|].
  destruct (Os.find _ _); destruct (Os.names_a_directory p); try done; auto.
Qed.

Lemma open_for_writing_writable w p :
  Os.writable w p = true ↔
  Os.open_for_writing w p
  = Ok (Os.with_root w (Os.write (Os.canonical w p) (Os.root w))).
Proof.
  unfold Os.writable, Os.open_for_writing.
  destruct (Os.stat w p); try done. by destruct (Os.names_a_directory p).
Qed.

Lemma open_for_writing_inv w p w' :
  Os.open_for_writing w p = Ok w' →
  Os.writable w p = true
  ∧ w' = Os.with_root w (Os.write (Os.canonical w p) (Os.root w)).
Proof.
  unfold Os.writable, Os.open_for_writing.
  destruct (Os.stat w p); try done; [by intros [= <-]|].
  destruct (Os.names_a_directory p); [done|]. by intros [= <-].
Qed.

Lemma copyfile_inv w src dst w' :
  Os.copyfile w src dst = Ok w' →
  Os.isfile w src = true
  ∧ Os.writable w dst = true
  ∧ w' = Os.with_root w (Os.write (Os.canonical w dst) (Os.root w)).
Proof.
  unfold Os.copyfile, Os.isfile. destruct (Os.samefile w src dst); [done|].
  destruct (Os.stat w src); try done.
  intros H%open_for_writing_inv. by split.
Qed.


(** Writing a file makes it a regular file, and no other path changes
    from or to a regular file. *)
Lemma isfile_written w dst :
  Os.writable w dst = true →
  let w' := Os.with_root w (Os.write (Os.canonical w dst) (Os.root w)) in
  Os.isfile w' dst = true
  ∧ (∀ p, Os.isfile w p = true → Os.isfile w' p = true)
  ∧ (∀ p, Os.canonical w p ≠ Os.canonical w dst →
          Os.isfile w' p = Os.isfile w p).
Proof.
  intros (Hne & Hdir & Hfind)%writable_find w'.
  assert (∀ p, Os.canonical w' p = Os.canonical w p) as Hcan by done.
  split; [|split].
  - apply isfile_IsFile, stat_IsFile. rewrite Hcan.
    split; [done|]. split; [|done]. by apply find_write.
  - intros p (Hp & Hf & Hd)%isfile_IsFile%stat_IsFile.
    apply isfile_IsFile, stat_IsFile. rewrite Hcan.
    split; [done|]. split; [|done]. cbn [w' Os.root Os.with_root].
    destruct (decide (Os.canonical w p = Os.canonical w dst)) as [->|Hc].
    + by apply find_write.
    + by apply find_write_other.
  - intros p Hc. apply eq_true_iff_eq.
    rewrite !isfile_IsFile, !stat_IsFile, Hcan.
    cbn [w' Os.root Os.with_root]. by rewrite find_write_other.
Qed.

Lemma isfile_copyfile w src dst w' p :
  Os.copyfile w src dst = Ok w' →
  (Os.isfile w p = true → Os.isfile w' p = true)
  ∧ Os.isfile w' dst = true.
Proof.
  intros (_ & Hw & ->)%copyfile_inv.
  destruct (isfile_written w dst Hw) as (Hdst & Hkeep & _). auto.
Qed.

(** The copy of a regular file to a place that can be written. *)
Lemma copyfile_ok w src dst :
  Os.isfile w src = true →
  Os.writable w dst = true →
  Os.canonical w src ≠ Os.canonical w dst →
  Os.copyfile w src dst
  = Ok (Os.with_root w (Os.write (Os.canonical w dst) (Os.root w))).
Proof.
  intros Hsrc Hdst Hne. unfold Os.copyfile, Os.samefile.
  rewrite bool_decide_eq_false_2, andb_false_r by done.
  apply isfile_IsFile in Hsrc. rewrite Hsrc.
  by apply open_for_writing_writable.
Qed.

(** With no explicit path, [X509_USER_PROXY] naming a regular file, and
    the hidden file of the same base name in the run directory being a
    place that can be written (the run directory exists, and that name
    in it is free or a regular file): the file is copied there, and the
    credential is the copy; nothing is logged. The copy is a regular
    file afterwards, the source is still there, no other path has become
    or ceased to be a regular file, and no environment variable has
    changed. The paths are written without [..]. *)
Theorem x509_env_file_is_copied
    (w : Os.world) (outdir cert_path : string) :
  Os.environ w !! "X509_USER_PROXY" = Some cert_path →
  Os.dotdot_free cert_path = true →
  Os.dotdot_free outdir = true →
  Os.isfile w cert_path = true →
  let new_cert_path := Os.join outdir ("." +:+ Os.basename cert_path) in
  Os.writable w new_cert_path = true →
  ∃ w',
    Input_x509userproxy_setter w outdir None
      = Ok (Some (Some new_cert_path), w', [])
    ∧ Os.isfile w' new_cert_path = true
    ∧ Os.isfile w' cert_path = true
    ∧ (∀ p, Os.canonical w p ≠ Os.canonical w new_cert_path →
            Os.isfile w' p = Os.isfile w p)
    ∧ Os.environ w' = Os.environ w.
Proof.
  intros He _ _ Hsrc new_cert_path Hdst.
  unfold Input_x509userproxy_setter, Os.getenv.
  rewrite He. cbn. fold new_cert_path.
  rewrite copyfile_ok
    by (try done; by apply hidden_copy_is_another_file).
  cbn. eexists. split; [reflexivity|].
  destruct (isfile_written w new_cert_path Hdst) as (H1 & H2 & H3).
  split; [exact H1|]. split; [by apply H2|]. split; [exact H3|done].
Qed.

(** The witness: the certificate of the fixture, named by the
    environment, is copied to [/cwd/outdir/.X509.txt] once the run
    directory is made. *)
Lemma x509_env_file_is_copied_witness :
  ∃ w',
    Input_x509userproxy_setter
      (Os.check_directory_exists_and_if_not_mkdir
         (test_world (proxy_env "/tests/X509.txt")) "outdir")
      "/cwd/outdir" None
    = Ok (Some (Some "/cwd/outdir/.X509.txt"), w', [])
    ∧ Os.isfile w' "/cwd/outdir/.X509.txt" = true.
Proof.
  destruct (x509_env_file_is_copied
    (Os.check_directory_exists_and_if_not_mkdir
       (test_world (proxy_env "/tests/X509.txt")) "outdir")
    "/cwd/outdir" "/tests/X509.txt"
    ltac:(vm_compute; reflexivity) ltac:(vm_compute; reflexivity)
    ltac:(vm_compute; reflexivity) ltac:(vm_compute; reflexivity)
    ltac:(vm_compute; reflexivity)) as (w' & H & Hcopy & _).
  exists w'. split; [exact H|exact Hcopy].
Defined.

(** [FileNotFoundError] is also what [shutil.copyfile] raises when the
    source is a regular file and the directory of the destination is
    missing: then nothing is copied, the setter warns that the variable
    does not point to a file, and the credential is left unset. *)
Theorem x509_env_copy_needs_the_run_directory
    (w : Os.world) (outdir cert_path : string) :
  Os.environ w !! "X509_USER_PROXY" = Some cert_path →
  Os.dotdot_free cert_path = true →
  Os.dotdot_free outdir = true →
  Os.isfile w cert_path = true →
  Os.stat w (Os.join outdir ("." +:+ Os.basename cert_path)) = Os.NoEntry →
  Input_x509userproxy_setter w outdir None
  = Ok (None, w, [x509_warning_no_file]).
Proof.
  intros He _ _ Hsrc Hdst.
  unfold Input_x509userproxy_setter, Os.getenv.
  rewrite He. cbn.
  unfold Os.copyfile, Os.samefile.
  assert (Os.exists_ w (Os.join outdir ("." +:+ Os.basename cert_path))
          = false) as ->
    by (unfold Os.exists_, Os.isfile, Os.isdir; by rewrite Hdst).
  rewrite andb_false_r. cbn.
  apply isfile_IsFile in Hsrc. rewrite Hsrc.
  unfold Os.open_for_writing. by rewrite Hdst.
Qed.

(** The witness: the fixture before the run directory is made. *)
Lemma x509_env_copy_needs_the_run_directory_witness :
  Input_x509userproxy_setter
    (test_world (proxy_env "/tests/X509.txt")) "/cwd/outdir" None
  = Ok (None, test_world (proxy_env "/tests/X509.txt"),
        [x509_warning_no_file]).
Proof.
  apply (x509_env_copy_needs_the_run_directory
    (test_world (proxy_env "/tests/X509.txt"))
    "/cwd/outdir" "/tests/X509.txt");
    vm_compute; reflexivity.
Defined.



(** ** The [Input] that is built *)

(** A returning [Input.__init__] has gone through every setter. *)
Lemma Input_init_inv w args unknown i w' :
  Input_init w args unknown = Ok (i, w') →
  ∃ dets exe log,
    Input_include_detectors_setter Input_known_detectors
      (args_include_detectors args) = Ok dets
    ∧ Input_executable_setter w (args_executable args) = Ok exe
    ∧ Input_x509userproxy_setter
        (Os.check_directory_exists_and_if_not_mkdir w (args_outdir args))
        (Os.abspath w (args_outdir args)) (args_X509 args)
      = Ok (_x509userproxy i, w', log)
    ∧ args_exe_help args = false
    ∧ _include_detectors i = dets
    ∧ _executable i = exe.
Proof.
  intros Hinit.
  destruct (Input_include_detectors_setter Input_known_detectors
              (args_include_detectors args)) as [dets|e] eqn:Hdets; cycle 1.
  { unfold Input_init, Input_outdir_setter in Hinit.
    by rewrite Hdets in Hinit. }
  destruct (Input_executable_setter w (args_executable args))
    as [exe|e] eqn:Hexe; cycle 1.
  { unfold Input_init, Input_outdir_setter in Hinit.
    rewrite Hdets in Hinit. cbn in Hinit.
    by rewrite executable_setter_mkdir, Hexe in Hinit. }
  rewrite (Input_init_unfold _ _ _ _ _ Hdets Hexe) in Hinit.
  cbn zeta in Hinit.
  destruct (Input_x509userproxy_setter _ _ _) as [[[x509 w2] log]|e]; [|done].
  cbn in Hinit.
  destruct (args_exe_help args); [done|].
  cbn in Hinit. injection Hinit as <- <-.
  exists dets, exe, log. done.
Qed.

Lemma check_known_inv known l :
  check_known known l = Ok () → Forall (λ d, d ∈ known) l.
Proof.
  induction l as [|d l IH]; [done|].
  cbn. unfold contains. case_bool_decide; [|done].
  intros Hl. constructor; auto.
Qed.

Lemma include_detectors_setter_known known v r :
  Input_include_detectors_setter known v = Ok r →
  Forall (λ d, d ∈ known) r.
Proof.
  unfold Input_include_detectors_setter.
  destruct (match v with PyStr _ | PyList _ => _ | _ => _ end)
    as [tokens|]; [|done].
  cbn. destruct (check_known known (upper <$> Py.sort tokens)) as [[]|]
    eqn:Hcheck; [|done].
  intros [= <-]. by apply check_known_inv.
Qed.

Lemma x509_setter_isfile w outdir x509 attr w' log p :
  Input_x509userproxy_setter w outdir x509 = Ok (attr, w', log) →
  (Os.isfile w p = true → Os.isfile w' p = true)
  ∧ (attr = Some (Some p) → Os.isfile w' p = true).
Proof.
  unfold Input_x509userproxy_setter. destruct x509 as [path|].
  - destruct (Os.isfile w path) eqn:Hpath; [|done].
    intros [= <- <- _]. split; [done|]. by intros [= <-].
  - unfold Os.getenv.
    destruct (Os.environ w !! "X509_USER_PROXY") as [cert_path|];
      cbn; [|intros [= <- <- _]; by split].
    destruct (Os.copyfile w cert_path _) as [w2|e] eqn:Hcopy; cbn.
    + intros [= <- <- _].
      split; [by apply (proj1 (isfile_copyfile _ _ _ _ p Hcopy))|].
      intros [= <-]. by apply (proj2 (isfile_copyfile _ _ _ _ "" Hcopy)).
    + destruct e; try done; intros [= <- <- _]; by split.
Qed.

Lemma executable_setter_isfile w executable p :
  Input_executable_setter w executable = Ok p → Os.isfile w p = true.
Proof.
  unfold Input_executable_setter.
  destruct (Os.isfile w executable) eqn:H1; [by intros [= <-]|].
  destruct (Os.isfile w (Os.join _ executable)) eqn:H2;
    [by intros [= <-]|].
  destruct (Os.isfile w (Os.join _ executable +:+ ".py")) eqn:H3;
    [by intros [= <-]|done].
Qed.

(** Whenever [Input.__init__] returns, the object it has built is
    consistent with the world it leaves: every detector is one of the
    known detectors, the executable names an existing file, a credential
    path, if there is one, names an existing file, and [exe_help] was not
    asked for. *)
Theorem Input_init_invariants
    (w : Os.world) (args : Args) (unknown : list string)
    (i : Input) (w' : Os.world) :
  Input_init w args unknown = Ok (i, w') →
  Forall (λ d, d ∈ Input_known_detectors) (_include_detectors i)
  ∧ Os.isfile w' (_executable i) = true
  ∧ (∀ p, _x509userproxy i = Some (Some p) → Os.isfile w' p = true)
  ∧ args_exe_help args = false.
Proof.
  intros (dets & exe & log & Hdets & Hexe & Hx & Hhelp & <- & <-)%Input_init_inv.
  split; [by eapply include_detectors_setter_known|].
  split; [|split; [|done]].
  - apply (proj1 (x509_setter_isfile _ _ _ _ _ _ (_executable i) Hx)).
    rewrite isfile_mkdir. by eapply executable_setter_isfile.
  - intros p Hp. by apply (proj2 (x509_setter_isfile _ _ _ _ _ _ p Hx)).
Qed.

(** The witness: the fixture of the test. *)
Lemma Input_init_invariants_witness :
  ∃ i w',
    Input_init (test_world ∅)
      (test_args (PyStr "H1 L1") true (PyList ["nestle"])
         (Some "/tests/X509.txt")) test_unknown_args = Ok (i, w')
    ∧ Forall (λ d, d ∈ Input_known_detectors) (_include_detectors i)
    ∧ Os.isfile w' (_executable i) = true.
Proof.
  eexists _, _.
  assert (∀ r, r = Input_init (test_world ∅)
      (test_args (PyStr "H1 L1") true (PyList ["nestle"])
         (Some "/tests/X509.txt")) test_unknown_args →
      ∀ i w', r = Ok (i, w') →
      Input_init (test_world ∅)
        (test_args (PyStr "H1 L1") true (PyList ["nestle"])
           (Some "/tests/X509.txt")) test_unknown_args = Ok (i, w')
      ∧ Forall (λ d, d ∈ Input_known_detectors) (_include_detectors i)
      ∧ Os.isfile w' (_executable i) = true) as H.
  { intros r -> i w' Hr. split; [exact Hr|].
    destruct (Input_init_invariants _ _ _ _ _ Hr) as (H1 & H2 & _).
    by split. }
  eapply H; [reflexivity|]. vm_compute. reflexivity.
Defined.

(** With [exe_help] set, [Input.__init__] never returns an [Input]: it
    ends in [sys.exit()], but only after the run directory has been made
    and the detectors, the executable and the credential have been set,
    so an error of one of these comes first. *)
Theorem exe_help_exits
    (w : Os.world) (args : Args) (unknown : list string) :
  args_exe_help args = true →
  (∃ e, Input_init w args unknown = Raise e)
  ∧ (∀ dets exe r,
       Input_include_detectors_setter Input_known_detectors
         (args_include_detectors args) = Ok dets →
       Input_executable_setter w (args_executable args) = Ok exe →
       Input_x509userproxy_setter
         (Os.check_directory_exists_and_if_not_mkdir w (args_outdir args))
         (Os.abspath w (args_outdir args)) (args_X509 args) = Ok r →
       Input_init w args unknown = Raise SystemExit).
Proof.
  intros Hhelp. split.
  - destruct (Input_init w args unknown) as [[i w']|e] eqn:Hinit; [|eauto].
    apply Input_init_inv in Hinit as (? & ? & ? & _ & _ & _ & Hno & _).
    congruence.
  - intros dets exe [[x509 w2] log] Hdets Hexe Hx.
    rewrite (Input_init_unfold _ _ _ _ _ Hdets Hexe). cbn zeta.
    rewrite Hx, Hhelp. reflexivity.
Qed.

(** The witness: the fixture with [--exe-help] exits; with an unknown
    detector besides, the error about the detector comes first. *)
Lemma exe_help_exits_witness :
  Input_init (test_world ∅) (test_args_exe_help (PyStr "H1"))
    test_unknown_args = Raise SystemExit
  ∧ ∃ e, Input_init (test_world ∅) (test_args_exe_help (PyStr "K1"))
           test_unknown_args = Raise e.
Proof.
  split.
  - refine (proj2 (exe_help_exits (test_world ∅)
      (test_args_exe_help (PyStr "H1")) test_unknown_args eq_refl)
      ["H1"] "/pkg/lib_scripts/bbh_from_gracedb.py"
      (Some (Some "/tests/X509.txt"), _, _) _ _ _); vm_compute; reflexivity.
  - exact (proj1 (exe_help_exits (test_world ∅)
      (test_args_exe_help (PyStr "K1")) test_unknown_args eq_refl)).
Defined.

(** ** What the detector normalisation keeps *)

Lemma include_detectors_setter_tokens known tokens r :
  (det_list ← Ok tokens;
   let det_list := Py.sort det_list in
   let det_list := upper <$> det_list in
   _ ← check_known known det_list;
   Ok det_list) = Ok r →
  r = upper <$> Py.sort tokens
  ∧ r ≡ₚ upper <$> tokens
  ∧ length r = length tokens.
Proof.
  cbn. destruct (check_known known (upper <$> Py.sort tokens)) as [[]|];
    [|done].
  intros [= <-]. split; [done|].
  split; [by rewrite sort_perm|].
  by rewrite length_fmap, sort_perm.
Qed.

(** The [include_detectors] setter drops nothing and merges nothing: when
    it returns, its result holds the uppercased tokens, each as often as
    it was given, and every one of them is a known detector. The tokens
    are the fields of a string between its spaces, or the elements of a
    list of other than one element. A value that is neither a string nor
    a list is rejected. *)
Theorem include_detectors_keeps_every_token (known : list string) :
  (∀ s r,
     Input_include_detectors_setter known (PyStr s) = Ok r →
     r ≡ₚ upper <$> split_space s
     ∧ length r = length (split_space s)
     ∧ Forall (λ d, d ∈ known) r)
  ∧ (∀ l r,
       length l ≠ 1 →
       Input_include_detectors_setter known (PyList l) = Ok r →
       r ≡ₚ upper <$> l ∧ length r = length l ∧ Forall (λ d, d ∈ known) r)
  ∧ (∀ v,
       (∀ s, v ≠ PyStr s) → (∀ l, v ≠ PyList l) →
       Input_include_detectors_setter known v
       = Raise (ValueError ("Input `include_detectors` = " +:+ format v
                            +:+ " not understood"))).
Proof.
  split; [|split].
  - intros s r Hr.
    pose proof (include_detectors_setter_known _ _ _ Hr) as Hk.
    apply include_detectors_setter_tokens in Hr as (_ & Hp & Hlen).
    done.
  - intros l r Hlen Hr.
    pose proof (include_detectors_setter_known _ _ _ Hr) as Hk.
    assert (match l with
            | [s] => Ok (Input__split_string_by_space s)
            | _ => Ok l
            end = Ok l) as Hl by (by destruct l as [|? [|]]).
    unfold Input_include_detectors_setter in Hr. rewrite Hl in Hr.
    apply include_detectors_setter_tokens in Hr as (_ & Hp & Hlen').
    done.
  - intros v Hs Hl. destruct v; try done.
    + by destruct (Hs s).
    + by destruct (Hl l).
Qed.

(** A detector given twice is kept twice, and an empty list of detectors
    is accepted, while the empty string is not. *)
Example include_detectors_duplicates_and_empty :
  Input_include_detectors_setter Input_known_detectors (PyStr "H1 L1 H1")
    = Ok ["H1"; "H1"; "L1"]
  ∧ Input_include_detectors_setter Input_known_detectors (PyList [])
    = Ok []
  ∧ Input_include_detectors_setter Input_known_detectors (PyStr "")
    = Raise (unknown_detector Input_known_detectors "").
Proof. repeat split; vm_compute; reflexivity. Qed.

(** ** What the expander yields *)

Lemma expansion_membership i samplers job :
  job ∈ expansion i samplers ↔
    job_input.sampler job ∈ samplers
    ∧ job_input.detectors job ∈ detector_subsets i.
Proof.
  unfold expansion. rewrite list_elem_of_bind. split.
  - intros (subset & (s & -> & Hs)%list_elem_of_fmap & Hsub). done.
  - intros [Hs Hsub]. exists (job_input.detectors job). split; [|done].
    apply list_elem_of_fmap. exists (job_input.sampler job).
    split; [by destruct job|done].
Qed.

Lemma expansion_nil i samplers :
  expansion i samplers = [] ↔ samplers = [].
Proof.
  split.
  - intros Hnil. destruct samplers as [|s samplers]; [done|].
    assert (job_spec (_include_detectors i) s ∈ expansion i (s :: samplers))
      as Hin.
    { apply expansion_membership. cbn. split; [left|].
      unfold detector_subsets. left. }
    rewrite Hnil in Hin. by apply elem_of_nil in Hin.
  - intros ->. unfold expansion.
    induction (detector_subsets i) as [|subset l IH]; [done|].
    by rewrite bind_cons, IH.
Qed.

(** The entries of [jobs_inputs] are exactly the pairs of a configured
    sampler with the full detector list or, under the coherence test,
    with the list of one of its detectors; nothing else is ever
    generated, no pair of detectors in particular. There is no entry
    exactly when there is no sampler, and the number of entries is the
    number of samplers times one more than the number of detectors under
    the coherence test, times one without it. *)
Theorem jobs_inputs_entries (i : Input) (samplers : list string) :
  iter (sampler i) = Ok samplers →
  ∃ jobs_inputs,
    Dag_jobs_inputs i = Ok jobs_inputs
    ∧ (∀ job,
         job ∈ jobs_inputs ↔
           job_input.sampler job ∈ samplers
           ∧ (job_input.detectors job = _include_detectors i
              ∨ (coherence_test i = true
                 ∧ ∃ d, d ∈ _include_detectors i
                        ∧ job_input.detectors job = [d])))
    ∧ (jobs_inputs = [] ↔ samplers = [])
    ∧ length jobs_inputs
      = (if coherence_test i then S (length (_include_detectors i)) else 1)
        * length samplers.
Proof.
  intros Hs. exists (expansion i samplers).
  split; [by apply jobs_inputs_eq|]. split; [|split].
  - intros job. rewrite expansion_membership.
    unfold detector_subsets. rewrite elem_of_cons.
    destruct (coherence_test i).
    + rewrite list_elem_of_fmap. split; intros [Hin Hd]; (split; [done|]).
      * destruct Hd as [Hd|(d & Hd & Hin')]; [by left|right]. eauto.
      * destruct Hd as [Hd|(_ & d & Hin' & Hd)]; [by left|right]. eauto.
    + rewrite elem_of_nil. split; intros [Hin Hd]; (split; [done|]).
      * destruct Hd as [Hd|[]]. by left.
      * destruct Hd as [Hd|[? _]]; [by left|done].
  - apply expansion_nil.
  - unfold expansion. rewrite product_length. unfold detector_subsets.
    destruct (coherence_test i); cbn; by rewrite ?length_fmap.
Qed.

(** The witness: three detectors under the coherence test, two samplers,
    eight entries. *)
Lemma jobs_inputs_entries_witness :
  ∃ jobs_inputs,
    Dag_jobs_inputs
      (test_inputs ["H1"; "L1"; "V1"] true (PyList ["nestle"; "dynesty"])
         (Some (Some "/tests/X509.txt"))) = Ok jobs_inputs
    ∧ length jobs_inputs = 8.
Proof.
  destruct (jobs_inputs_entries
    (test_inputs ["H1"; "L1"; "V1"] true (PyList ["nestle"; "dynesty"])
       (Some (Some "/tests/X509.txt")))
    ["nestle"; "dynesty"] eq_refl) as (l & Hl & _ & _ & Hlen).
  exists l. split; [exact Hl|exact Hlen].
Defined.

Lemma chars_length s : length (chars s) = String.length s.
Proof. induction s as [|c s IH]; [done|]. cbn. by rewrite IH. Qed.

Lemma chars_single s c : c ∈ chars s → String.length c = 1.
Proof.
  induction s as [|a s IH]; cbn; [by intros ?%elem_of_nil|].
  rewrite elem_of_cons. intros [->|Hc]; [done|by apply IH].
Qed.

(** A sampler given as a bare string, as the default ['dynesty'] of
    [parse_args] is, is taken character by character: [jobs_inputs] has
    one entry per subset and character of the string, and the sampler of
    every entry is a single character. *)
Theorem jobs_inputs_of_str_sampler (i : Input) (s : string) :
  sampler i = PyStr s →
  ∃ jobs_inputs,
    Dag_jobs_inputs i = Ok jobs_inputs
    ∧ length jobs_inputs = length (detector_subsets i) * String.length s
    ∧ Forall (λ job, String.length (job_input.sampler job) = 1
                     ∧ job_input.sampler job ∈ chars s) jobs_inputs.
Proof.
  intros Hs. exists (expansion i (chars s)).
  assert (iter (sampler i) = Ok (chars s)) as Hiter by (by rewrite Hs).
  split; [by apply jobs_inputs_eq|]. split.
  - unfold expansion. by rewrite product_length, chars_length.
  - apply Forall_forall. intros job [Hc _]%expansion_membership.
    split; [by eapply chars_single|done].
Qed.

(** The witness: the default sampler of [parse_args]. *)
Lemma jobs_inputs_of_str_sampler_witness :
  ∃ jobs_inputs,
    Dag_jobs_inputs
      (test_inputs ["H1"; "L1"] false (PyStr "dynesty")
         (Some (Some "/tests/X509.txt"))) = Ok jobs_inputs
    ∧ length jobs_inputs = 7.
Proof.
  destruct (jobs_inputs_of_str_sampler
    (test_inputs ["H1"; "L1"] false (PyStr "dynesty")
       (Some (Some "/tests/X509.txt"))) "dynesty" eq_refl)
    as (l & Hl & Hlen & _).
  exists l. split; [exact Hl|exact Hlen].
Defined.

(** ** When the construction of the [Dag] fails *)

Lemma after_create_jobs_nil self x : after_create_jobs self [] x = self.
Proof.
  unfold after_create_jobs, add_results_pages. cbn.
  by rewrite !app_nil_r, Dagman_eta, Dag_eta.
Qed.

Lemma create_job_x509_unset self detectors s :
  _x509userproxy (inputs self) = None →
  Dag__create_job self (PyList detectors) s = Raise x509_not_set.
Proof. intros Hx. unfold Dag__create_job. by rewrite Hx. Qed.

Lemma Dag_init_no_sampler i kw x :
  iter (sampler i) = Ok [] →
  Dag_init i kw = Ok (Dag_built i kw [] x).
Proof.
  intros Hs. unfold Dag_init, Dag_create_jobs. cbn zeta.
  change (inputs (Dag_attributes i kw)) with i.
  assert (expansion i [] = []) as Hnil by (by apply expansion_nil).
  assert (Dag_jobs_inputs i = Ok []) as Hji.
  { rewrite (jobs_inputs_eq _ _ Hs). fold (expansion i []). by rewrite Hnil. }
  rewrite Hji. cbn [mbind result_bind create_jobs_loop].
  rewrite (postprocessing_ok _ []); [|done|exact Hji].
  unfold Dag_built. by rewrite Hnil, after_create_jobs_nil.
Qed.

Lemma Dag_init_not_iterable i kw e :
  iter (sampler i) = Raise e →
  e = TypeError ∧ Dag_init i kw = Raise TypeError.
Proof.
  intros Hs. assert (e = TypeError) as ->.
  { unfold iter in Hs. by destruct (sampler i); simplify_eq. }
  split; [done|].
  unfold Dag_init, Dag_create_jobs, Dag_jobs_inputs. cbn zeta.
  change (inputs (Dag_attributes i kw)) with i. by rewrite Hs.
Qed.

Lemma Dag_init_x509_unset i kw s samplers :
  iter (sampler i) = Ok (s :: samplers) →
  _x509userproxy i = None →
  Dag_init i kw = Raise x509_not_set.
Proof.
  intros Hs Hx. unfold Dag_init, Dag_create_jobs. cbn zeta.
  change (inputs (Dag_attributes i kw)) with i.
  rewrite (jobs_inputs_eq _ _ Hs). fold (expansion i (s :: samplers)).
  destruct (expansion i (s :: samplers)) as [|job l] eqn:Hexp.
  { by apply expansion_nil in Hexp. }
  cbn [mbind result_bind create_jobs_loop].
  by rewrite create_job_x509_unset.
Qed.

(** The construction of the [Dag] has three outcomes. It raises
    [TypeError] when the sampler cannot be iterated. It raises the
    [ValueError] of the credential getter when there is a sampler and the
    credential attribute is unset: the first leaf job already needs it.
    Otherwise it returns; with no sampler it returns whatever the
    credential, with the aggregation job alone. *)
Theorem Dag_init_outcome (i : Input) (kw : kwargs) :
  match iter (sampler i), _x509userproxy i with
  | Raise e, _ => e = TypeError ∧ Dag_init i kw = Raise TypeError
  | Ok [], _ =>
      ∃ d, Dag_init i kw = Ok d ∧ jobs d = [] ∧ length (objects d) = 1
  | Ok (_ :: _), None => Dag_init i kw = Raise x509_not_set
  | Ok samplers, Some x =>
      Dag_init i kw = Ok (Dag_built i kw samplers x)
      ∧ length (jobs (Dag_built i kw samplers x))
        = length (detector_subsets i) * length samplers
  end.
Proof.
  destruct (iter (sampler i)) as [samplers|e] eqn:Hs.
  - destruct samplers as [|s samplers].
    + exists (Dag_built i kw [] None).
      split; [by apply Dag_init_no_sampler|].
      unfold Dag_built.
      assert (expansion i [] = []) as -> by (by apply expansion_nil).
      by rewrite after_create_jobs_nil.
    + destruct (_x509userproxy i) as [x|] eqn:Hx.
      * split; [by apply Dag_init_ok|].
        unfold Dag_built, Dag_build_submit, after_postprocessing,
          after_create_jobs.
        cbn [jobs Dag_update Dag_attributes objects length app].
        rewrite length_seq. unfold expansion. by rewrite product_length.
      * by eapply Dag_init_x509_unset.
  - by apply Dag_init_not_iterable.
Qed.

(** A returned [Dag] is the one the three steps build. *)
Lemma Dag_init_inv i kw d :
  Dag_init i kw = Ok d →
  ∃ samplers x,
    iter (sampler i) = Ok samplers
    ∧ (_x509userproxy i = Some x ∨ samplers = [])
    ∧ d = Dag_built i kw samplers x.
Proof.
  intros Hd.
  destruct (iter (sampler i)) as [samplers|e] eqn:Hs; cycle 1.
  { destruct (Dag_init_not_iterable i kw e Hs) as [_ Hraise]. congruence. }
  exists samplers. destruct samplers as [|s samplers].
  - exists None. split; [done|]. split; [by right|].
    rewrite (Dag_init_no_sampler i kw None Hs) in Hd. congruence.
  - destruct (_x509userproxy i) as [x|] eqn:Hx; cycle 1.
    { rewrite (Dag_init_x509_unset i kw s samplers Hs Hx) in Hd.
      congruence. }
    exists x. split; [done|]. split; [by left|].
    rewrite (Dag_init_ok i kw x _ Hx Hs) in Hd. unfold Dag_built.
    congruence.
Qed.

Lemma Dag_built_leaf_jobs i kw samplers x :
  leaf_jobs (Dag_built i kw samplers x)
  = (λ job, leaf_Job (Dag_attributes i kw) (job_input.detectors job)
              (job_input.sampler job) x) <$> expansion i samplers.
Proof.
  unfold leaf_jobs, Dag_built. cbn.
  rewrite <- (length_fmap
    (λ job, leaf_Job (Dag_attributes i kw) (job_input.detectors job)
              (job_input.sampler job) x)).
  apply (omap_lookup_seq _ []).
Qed.

(** ** The results pages *)

Lemma lookup_add_results_pages i (l : list job_input.t) :
  ∀ (m : gmap string string) k,
    add_results_pages i l m !! k
    = if decide (k ∈ (λ job, run_label i (job_input.detectors job)
                              (job_input.sampler job)) <$> l)
      then Some (k +:+ ".html")
      else m !! k.
Proof.
  induction l as [|job l IH]; intros m k.
  - cbn. by rewrite decide_False by apply not_elem_of_nil.
  - unfold add_results_pages in *. cbn [foldl]. rewrite IH.
    rewrite fmap_cons.
    destruct (decide (k ∈ _ <$> l)) as [Hin|Hout].
    + rewrite decide_True by (by right). done.
    + destruct (decide (k = run_label i (job_input.detectors job)
                              (job_input.sampler job))) as [->|Hne].
      * rewrite decide_True by left. by rewrite lookup_insert_eq.
      * rewrite decide_False by (rewrite elem_of_cons; tauto).
        by rewrite lookup_insert_ne.
Qed.

(** In a constructed [Dag], [results_pages] maps the name of every leaf
    job to that name with [.html], and holds no other key; the
    aggregation job has no page. Leaf jobs of the same name share one
    entry. *)
Theorem results_pages_of_the_leaf_jobs
    (i : Input) (kw : kwargs) (d : Dag) :
  Dag_init i kw = Ok d →
  ∀ k v,
    results_pages d !! k = Some v ↔
      k ∈ pycondor.name <$> leaf_jobs d ∧ v = k +:+ ".html".
Proof.
  intros (samplers & x & _ & _ & ->)%Dag_init_inv k v.
  rewrite Dag_built_leaf_jobs, <- list_fmap_compose.
  change (results_pages (Dag_built i kw samplers x))
    with (add_results_pages i (expansion i samplers) ∅).
  rewrite lookup_add_results_pages.
  change (pycondor.name ∘ _)
    with (λ job : job_input.t,
            run_label i (job_input.detectors job) (job_input.sampler job)).
  destruct (decide _) as [Hin|Hout].
  - split; [by intros [= <-]|by intros [_ ->]].
  - rewrite lookup_empty. split; [done|]. by intros [? _].
Qed.

(** The witness: the names clash for one detector under the coherence
    test, and the two leaf jobs have one page. *)
Lemma results_pages_of_the_leaf_jobs_witness :
  ∃ d,
    Dag_init
      (test_inputs ["H1"] true (PyList ["nestle"])
         (Some (Some "/tests/X509.txt"))) kwargs_default = Ok d
    ∧ length (leaf_jobs d) = 2
    ∧ results_pages d !! "label_H1_nestle" = Some "label_H1_nestle.html"
    ∧ size (results_pages d) = 1.
Proof.
  assert (∀ r, r = Dag_init
      (test_inputs ["H1"] true (PyList ["nestle"])
         (Some (Some "/tests/X509.txt"))) kwargs_default →
    ∀ d, r = Ok d →
    pycondor.name <$> leaf_jobs d = ["label_H1_nestle"; "label_H1_nestle"] →
    size (results_pages d) = 1 →
    Dag_init
      (test_inputs ["H1"] true (PyList ["nestle"])
         (Some (Some "/tests/X509.txt"))) kwargs_default = Ok d
    ∧ length (leaf_jobs d) = 2
    ∧ results_pages d !! "label_H1_nestle" = Some "label_H1_nestle.html"
    ∧ size (results_pages d) = 1) as H.
  { intros r -> d Hd Hnames Hsize. split; [exact Hd|].
    split; [by rewrite <- (length_fmap pycondor.name), Hnames|].
    split; [|exact Hsize].
    apply (results_pages_of_the_leaf_jobs _ _ _ Hd).
    rewrite Hnames. split; [left|reflexivity]. }
  eexists. eapply H; [reflexivity|vm_compute; reflexivity|reflexivity|].
  vm_compute. reflexivity.
Defined.

(** ** The compiled jobs *)

Lemma format_x509 (x : option string) :
  format (from_option PyStr PyNone x) = from_option id "None" x.
Proof. by destruct x. Qed.

(** Every leaf job of a constructed [Dag] is compiled from an entry of
    [jobs_inputs] and from the [Input] alone: its name is the label, the
    concatenated detectors and the sampler, joined by underscores; its
    error, log and output paths are the logs directory of the run
    directory; its submit path is that of the dag; it runs the resolved
    executable with the queue of the [Input]; its extra lines are the
    accounting group and the credential; it has no parent; and the
    keyword arguments of the [Dag] other than [request_cpus] reach it
    unchanged. *)
Theorem leaf_job_fields
    (i : Input) (kw : kwargs) (d : Dag) (j : pycondor.Job) :
  Dag_init i kw = Ok d →
  j ∈ leaf_jobs d →
  ∃ x jobs_inputs job,
    _x509userproxy i = Some x
    ∧ Dag_jobs_inputs i = Ok jobs_inputs
    ∧ job ∈ jobs_inputs
    ∧ pycondor.name j
      = label i +:+ "_" +:+ Py.concat (job_input.detectors job)
        +:+ "_" +:+ job_input.sampler job
    ∧ pycondor.executable j = _executable i
    ∧ pycondor.error j = Os.join (_outdir i) "logs"
    ∧ pycondor.log j = Os.join (_outdir i) "logs"
    ∧ pycondor.output j = Os.join (_outdir i) "logs"
    ∧ pycondor.submit j = Os.join (_outdir i) "submit"
    ∧ pycondor.submit j = pycondor.dagman_submit (dag d)
    ∧ pycondor.queue j = PyInt (queue i)
    ∧ pycondor.extra_lines j = leaf_extra_lines i x
    ∧ pycondor.parents j = []
    ∧ pycondor.request_memory j = kw_request_memory kw
    ∧ pycondor.request_disk j = kw_request_disk kw
    ∧ pycondor.getenv j = kw_getenv kw
    ∧ pycondor.universe j = kw_universe kw
    ∧ pycondor.initialdir j = kw_initialdir kw
    ∧ pycondor.notification j = kw_notification kw
    ∧ pycondor.requirements j = kw_requirements kw
    ∧ pycondor.retry j = kw_retry kw
    ∧ pycondor.verbose j = kw_verbose kw.
Proof.
  intros (samplers & x & Hs & Hx & ->)%Dag_init_inv.
  rewrite Dag_built_leaf_jobs.
  intros (job & -> & Hjob)%list_elem_of_fmap.
  destruct Hx as [Hx| ->];
    [|by apply expansion_membership in Hjob as [?%elem_of_nil _]].
  exists x, (expansion i samplers), job.
  split; [done|]. split; [by apply jobs_inputs_eq|]. split; [done|].
  cbn. unfold leaf_extra_lines. rewrite format_x509. repeat split.
Qed.

(** The witness: the leaf jobs of the fixture of the test. *)
Lemma leaf_job_fields_witness :
  ∃ d,
    Dag_init
      (test_inputs ["H1"; "L1"] true (PyList ["nestle"])
         (Some (Some "/tests/X509.txt"))) kwargs_default = Ok d
    ∧ Forall (λ j, pycondor.log j = "/cwd/outdir/logs"
                   ∧ pycondor.submit j = "/cwd/outdir/submit")
        (leaf_jobs d).
Proof.
  destruct (Dag_init
      (test_inputs ["H1"; "L1"] true (PyList ["nestle"])
         (Some (Some "/tests/X509.txt"))) kwargs_default) as [d|e] eqn:Hd;
    [|vm_compute in Hd; discriminate].
  exists d. split; [reflexivity|].
  apply Forall_forall. intros j Hj.
  destruct (leaf_job_fields _ _ _ _ Hd Hj)
    as (x & l & job & _ & _ & _ & _ & _ & _ & Hlog & _ & Hsub & _).
  split; [exact Hlog|exact Hsub].
Defined.

Lemma after_create_jobs_leaf_jobs i kw l x :
  leaf_jobs (after_create_jobs (Dag_attributes i kw) l x)
  = (λ job, leaf_Job (Dag_attributes i kw) (job_input.detectors job)
              (job_input.sampler job) x) <$> l.
Proof.
  unfold leaf_jobs. cbn.
  pose proof (omap_lookup_seq
    ((λ job, leaf_Job (Dag_attributes i kw) (job_input.detectors job)
               (job_input.sampler job) x) <$> l) [] []) as H.
  rewrite app_nil_r, length_fmap in H. exact H.
Qed.

(** The aggregation job is the last job of a constructed [Dag]. Its
    arguments name, after [-r], the expected result file of every leaf
    job, built from the run directory and the name of the job, and after
    [-l] one label per leaf job, its concatenated detectors, both in the
    order of [jobs_inputs], so that the [k]-th file and the [k]-th label
    belong to the same job. It runs a fixed plotting executable, not the
    executable of the [Input]; its extra lines hold the accounting group
    only; and no keyword argument of the [Dag] reaches it. *)
Theorem aggregation_job_fields (i : Input) (kw : kwargs) (d : Dag) :
  Dag_init i kw = Ok d →
  ∃ post_job jobs_inputs,
    last (objects d) = Some post_job
    ∧ Dag_jobs_inputs i = Ok jobs_inputs
    ∧ pycondor.name <$> leaf_jobs d
      = (λ job, run_label i (job_input.detectors job)
                  (job_input.sampler job)) <$> jobs_inputs
    ∧ pycondor.name post_job = label i +:+ "_combine_results"
    ∧ pycondor.arguments post_job
      = "-r "
        +:+ Py.join " "
              ((λ job, _outdir i +:+ "/"
                       +:+ run_label i (job_input.detectors job)
                             (job_input.sampler job)
                       +:+ "_result.h5") <$> jobs_inputs)
        +:+ " -f " +:+ _outdir i +:+ "/" +:+ label i
        +:+ "_combine_results_corner.png -l "
        +:+ Py.join " "
              ((λ job, Py.concat (job_input.detectors job)) <$> jobs_inputs)
    ∧ pycondor.executable post_job
      = "/home/gregory.ashton/anaconda3/bin/bilby_plot"
    ∧ pycondor.extra_lines post_job = "accounting_group=" +:+ accounting i
    ∧ pycondor.submit post_job = pycondor.dagman_submit (dag d)
    ∧ (pycondor.request_memory post_job, pycondor.request_disk post_job,
       pycondor.request_cpus post_job, pycondor.getenv post_job,
       pycondor.universe post_job, pycondor.retry post_job)
      = (PyNone, PyNone, PyNone, PyNone, PyNone, PyNone).
Proof.
  intros (samplers & x & Hs & Hx & ->)%Dag_init_inv.
  exists (post_Job (after_create_jobs (Dag_attributes i kw)
                      (expansion i samplers) x) (expansion i samplers)),
    (expansion i samplers).
  split; [apply last_snoc|].
  split; [by apply jobs_inputs_eq|].
  split.
  { rewrite Dag_built_leaf_jobs, <- list_fmap_compose. done. }
  split; [done|]. split; [|done].
  cbn [pycondor.arguments post_Job].
  rewrite after_create_jobs_leaf_jobs, <- list_fmap_compose.
  cbn [inputs after_create_jobs Dag_update Dag_attributes].
  rewrite (append_assoc (label i)). reflexivity.
Qed.

(** The witness: the aggregation job of the fixture of the test. *)
Lemma aggregation_job_fields_witness :
  ∃ d post_job,
    Dag_init
      (test_inputs ["H1"; "L1"] true (PyList ["nestle"])
         (Some (Some "/tests/X509.txt"))) kwargs_default = Ok d
    ∧ last (objects d) = Some post_job
    ∧ pycondor.name post_job = "label_combine_results".
Proof.
  destruct (Dag_init
      (test_inputs ["H1"; "L1"] true (PyList ["nestle"])
         (Some (Some "/tests/X509.txt"))) kwargs_default) as [d|e] eqn:Hd;
    [|vm_compute in Hd; discriminate].
  destruct (aggregation_job_fields _ _ _ Hd)
    as (post_job & l & Hlast & _ & _ & Hname & _).
  exists d, post_job. split; [reflexivity|]. split; [exact Hlast|exact Hname].
Defined.

(** ** [main] and the credential *)

(** The [Input] of a run with no explicit credential path whose setter
    only warns. *)
Lemma Input_init_env_fallback w args unknown dets exe attr log :
  args_X509 args = None →
  args_exe_help args = false →
  Input_include_detectors_setter Input_known_detectors
    (args_include_detectors args) = Ok dets →
  Input_executable_setter w (args_executable args) = Ok exe →
  Input_x509userproxy_setter
    (Os.check_directory_exists_and_if_not_mkdir w (args_outdir args))
    (Os.abspath w (args_outdir args)) None
  = Ok (attr, Os.check_directory_exists_and_if_not_mkdir w (args_outdir args),
        log) →
  ∃ i,
    Input_init w args unknown
    = Ok (i, Os.check_directory_exists_and_if_not_mkdir w (args_outdir args))
    ∧ _x509userproxy i = attr
    ∧ sampler i = args_sampler args
    ∧ accounting i = args_accounting args
    ∧ create_summary i = args_create_summary args.
Proof.
  intros Hx Hhelp Hdets Hexe Hset.
  rewrite (Input_init_unfold _ _ _ _ _ Hdets Hexe). cbn zeta.
  rewrite Hx, Hset, Hhelp. cbn. eauto 10.
Qed.

(** With [X509_USER_PROXY] naming a missing file (nothing is at the path
    once the run directory is there; the path and the run directory are
    written without [..]) and at least one sampler, [main] builds the
    [Input] and then stops in the construction of the [Dag]: compiling
    the first leaf job reads the credential, and the getter raises its
    [ValueError]. No graph is built. *)
Theorem main_stops_on_missing_proxy_file
    (w : Os.world) (args : Args) (unknown : list string)
    (dets : list string) (exe cert_path s : string)
    (samplers : list string) :
  args_X509 args = None →
  args_exe_help args = false →
  Input_include_detectors_setter Input_known_detectors
    (args_include_detectors args) = Ok dets →
  Input_executable_setter w (args_executable args) = Ok exe →
  Os.environ w !! "X509_USER_PROXY" = Some cert_path →
  Os.dotdot_free cert_path = true →
  Os.dotdot_free (args_outdir args) = true →
  let w1 := Os.check_directory_exists_and_if_not_mkdir w (args_outdir args) in
  Os.isdir w1 (args_outdir args) = true →
  Os.missing w1 cert_path = true →
  iter (args_sampler args) = Ok (s :: samplers) →
  (∃ i, Input_init w args unknown = Ok (i, w1))
  ∧ main w args unknown = Raise x509_not_set.
Proof.
  intros Hx Hhelp Hdets Hexe He _ _ w1 _ Hmiss Hs.
  destruct (Input_init_env_fallback w args unknown dets exe None
              [x509_warning_no_file] Hx Hhelp Hdets Hexe)
    as (i & Hi & Hattr & Hsampler & _).
  { apply (x509_setter_env_file_missing _ _ cert_path);
      [by rewrite environ_mkdir|done]. }
  split; [eauto|].
  unfold main. rewrite Hi. cbn [mbind result_bind].
  rewrite (Dag_init_x509_unset i kwargs_default s samplers);
    [done|by rewrite Hsampler|done].
Qed.

(** The witness: the fixture of the test with no explicit certificate
    and a stale [X509_USER_PROXY]. *)
Lemma main_stops_on_missing_proxy_file_witness :
  main (test_world (proxy_env "/tmp/x509up_u1000"))
    (test_args (PyStr "H1") false (PyList ["nestle"]) None)
    test_unknown_args = Raise x509_not_set.
Proof.
  refine (proj2 (main_stops_on_missing_proxy_file
    (test_world (proxy_env "/tmp/x509up_u1000"))
    (test_args (PyStr "H1") false (PyList ["nestle"]) None)
    test_unknown_args ["H1"] "/pkg/lib_scripts/bbh_from_gracedb.py"
    "/tmp/x509up_u1000" "nestle" [] _ _ _ _ _ _ _ _ _ _));
  vm_compute; reflexivity.
Defined.

(** With [X509_USER_PROXY] unset, [main] builds the graph, and every leaf
    job is given the credential line [x509userproxy=None]. *)
Theorem main_without_proxy
    (w : Os.world) (args : Args) (unknown : list string)
    (dets : list string) (exe : string) (samplers : list string) :
  args_X509 args = None →
  args_exe_help args = false →
  Input_include_detectors_setter Input_known_detectors
    (args_include_detectors args) = Ok dets →
  Input_executable_setter w (args_executable args) = Ok exe →
  Os.environ w !! "X509_USER_PROXY" = None →
  iter (args_sampler args) = Ok samplers →
  ∃ d,
    main w args unknown
    = Ok (Os.check_directory_exists_and_if_not_mkdir w (args_outdir args),
          d, args_create_summary args)
    ∧ length (leaf_jobs d)
      = (if args_coherence_test args then S (length dets) else 1)
        * length samplers
    ∧ Forall (λ j, pycondor.extra_lines j
                   = "accounting_group=" +:+ args_accounting args +:+ nl
                     +:+ "x509userproxy=None")
        (leaf_jobs d).
Proof.
  intros Hx Hhelp Hdets Hexe He Hs.
  unfold main.
  rewrite (Input_init_unfold _ _ _ _ _ Hdets Hexe). cbn zeta.
  rewrite Hx, x509_setter_env_unset, Hhelp by (by rewrite environ_mkdir).
  cbn [mbind result_bind].
  erewrite Dag_init_ok; [|reflexivity|exact Hs].
  cbn [mbind result_bind create_summary]. eexists. split; [reflexivity|].
  pose proof (λ i, Dag_built_leaf_jobs i kwargs_default samplers None)
    as Hleaf.
  unfold Dag_built in Hleaf. rewrite Hleaf. split.
  - rewrite length_fmap. unfold expansion, detector_subsets.
    rewrite product_length. cbn.
    destruct (args_coherence_test args); cbn; by rewrite ?length_fmap.
  - apply Forall_fmap, Forall_forall. intros job _. reflexivity.
Qed.

(** The witness: the fixture of the test with no certificate at all. *)
Lemma main_without_proxy_witness :
  ∃ w' d,
    main (test_world ∅)
      (test_args (PyStr "H1 L1") true (PyList ["nestle"]) None)
      test_unknown_args = Ok (w', d, false)
    ∧ Forall (λ j, pycondor.extra_lines j
                   = "accounting_group=accounting.group" +:+ nl
                     +:+ "x509userproxy=None")
        (leaf_jobs d).
Proof.
  destruct (main_without_proxy (test_world ∅)
    (test_args (PyStr "H1 L1") true (PyList ["nestle"]) None)
    test_unknown_args ["H1"; "L1"] "/pkg/lib_scripts/bbh_from_gracedb.py"
    ["nestle"] eq_refl eq_refl ltac:(vm_compute; reflexivity)
    ltac:(vm_compute; reflexivity) ltac:(vm_compute; reflexivity) eq_refl)
    as (d & Hd & _ & Hlines).
  eexists _, d. split; [exact Hd|exact Hlines].
Defined.

(** * The script run by the leaf jobs *)

Example convert_string_to_list_examples :
  _convert_string_to_list "H1 L1" = ["H1"; "L1"]
  ∧ _convert_string_to_list "[H1, L1]" = ["H1"; "L1"]
  ∧ _convert_string_to_list "['H1','L1']" = ["H1"; "L1"]
  ∧ _convert_string_to_list "  H1,,L1 " = ["H1"; "L1"]
  ∧ _convert_string_to_list "" = [].
Proof. repeat split. Qed.

Lemma str_replace_app old new a b :
  str_replace old new (a +:+ b)
  = str_replace old new a +:+ str_replace old new b.
Proof.
  induction a as [|c a IH]; [done|].
  rewrite append_cons. cbn [str_replace]. rewrite IH.
  destruct (Ascii.eqb c old); [by rewrite append_assoc|done].
Qed.

Lemma str_replace_id old new s :
  all_chars (λ c, negb (Ascii.eqb c old)) s = true →
  str_replace old new s = s.
Proof.
  induction s as [|c s IH]; [done|]. cbn.
  intros [Hc Hs]%andb_true_iff. apply negb_true_iff in Hc.
  by rewrite Hc, IH.
Qed.

Lemma all_chars_impl (P Q : ascii → bool) s :
  (∀ c, P c = true → Q c = true) →
  all_chars P s = true → all_chars Q s = true.
Proof.
  intros HPQ. induction s as [|c s IH]; [done|]. cbn.
  intros [Hc Hs]%andb_true_iff. by rewrite (HPQ _ Hc), IH.
Qed.

Lemma convert_string_to_list_eq s :
  _convert_string_to_list s = str_split (strip_delimiters s).
Proof. reflexivity. Qed.

Lemma strip_delimiters_app a b :
  strip_delimiters (a +:+ b) = strip_delimiters a +:+ strip_delimiters b.
Proof. unfold strip_delimiters. by rewrite !str_replace_app. Qed.

Lemma strip_delimiters_plain t :
  all_chars plain_char t = true → strip_delimiters t = t.
Proof.
  intros Ht. unfold strip_delimiters.
  assert (∀ old new,
            plain_char old = false → str_replace old new t = t) as Hid.
  { intros old new Hold. apply str_replace_id.
    eapply all_chars_impl; [|exact Ht]. intros c Hc.
    apply negb_true_iff, Ascii.eqb_neq. intros ->. congruence. }
  by rewrite !Hid.
Qed.

Lemma strip_delimiters_join sep l :
  strip_delimiters (Py.join sep l)
  = Py.join (strip_delimiters sep) (strip_delimiters <$> l).
Proof.
  induction l as [|t [|t' l] IH]; [done..|].
  rewrite join_cons, !strip_delimiters_app, IH. reflexivity.
Qed.

(** *** Splitting at whitespace *)

Lemma str_split_go_skip pre rest :
  all_chars is_whitespace pre = true →
  str_split_go "" (pre +:+ rest) = str_split_go "" rest.
Proof.
  induction pre as [|c pre IH]; [done|]. cbn [all_chars].
  intros [Hc Hpre]%andb_true_iff.
  rewrite append_cons. cbn [str_split_go]. rewrite Hc. cbn. by apply IH.
Qed.

Lemma str_split_go_word t : ∀ cur rest,
  all_chars (λ c, negb (is_whitespace c)) t = true →
  str_split_go cur (t +:+ rest) = str_split_go (cur +:+ t) rest.
Proof.
  induction t as [|c t IH]; intros cur rest.
  - intros _. by rewrite append_nil_r.
  - cbn [all_chars]. intros [Hc Ht]%andb_true_iff.
    apply negb_true_iff in Hc.
    rewrite append_cons. cbn [str_split_go]. rewrite Hc, IH by done.
    by rewrite append_assoc.
Qed.

Lemma str_split_go_break cur ws rest :
  cur ≠ "" → ws ≠ "" →
  all_chars is_whitespace ws = true →
  str_split_go cur (ws +:+ rest) = cur :: str_split_go "" rest.
Proof.
  intros Hcur Hws Hall. destruct ws as [|c ws]; [done|].
  cbn [all_chars] in Hall. apply andb_true_iff in Hall as [Hc Hall].
  rewrite append_cons. cbn [str_split_go]. rewrite Hc.
  apply String.eqb_neq in Hcur. rewrite Hcur. cbn.
  by rewrite str_split_go_skip.
Qed.

Lemma plain_token_word t :
  plain_token t = true →
  t ≠ "" ∧ all_chars (λ c, negb (is_whitespace c)) t = true
  ∧ all_chars plain_char t = true.
Proof.
  unfold plain_token. intros [Hne Hall]%andb_true_iff.
  apply negb_true_iff, String.eqb_neq in Hne.
  split; [done|]. split; [|done].
  eapply all_chars_impl; [|exact Hall]. intros c. unfold plain_char.
  rewrite !andb_true_iff. tauto.
Qed.

(** Words of plain characters, set between runs of whitespace, are what
    [split()] returns. *)
Lemma str_split_words sep post (l : list string) : ∀ pre,
  Forall (λ t, plain_token t = true) l →
  all_chars is_whitespace pre = true →
  sep ≠ "" → all_chars is_whitespace sep = true →
  all_chars is_whitespace post = true →
  str_split (pre +:+ Py.join sep l +:+ post) = l.
Proof.
  unfold str_split.
  induction l as [|t [|t' l] IH]; intros pre Hl Hpre Hsep Hsepw Hpost.
  - rewrite str_split_go_skip by done.
    change (Py.join sep [] +:+ post) with post.
    rewrite <- (append_nil_r post), str_split_go_skip by done. done.
  - apply Forall_cons in Hl as [(Hne & Hword & _)%plain_token_word _].
    rewrite str_split_go_skip by done.
    change (Py.join sep [t]) with t.
    rewrite str_split_go_word by done.
    change ("" +:+ t) with t.
    destruct post as [|c post].
    + cbn. apply String.eqb_neq in Hne. by rewrite Hne.
    + rewrite <- (append_nil_r (String c post)).
      by rewrite str_split_go_break.
  - apply Forall_cons in Hl as [(Hne & Hword & _)%plain_token_word Hl].
    rewrite str_split_go_skip by done.
    rewrite join_cons, !append_assoc.
    rewrite str_split_go_word by done.
    change ("" +:+ t) with t.
    rewrite str_split_go_break by done.
    f_equal. by apply (IH "").
Qed.

(** A list of plain words, written with delimiters that the replacements
    turn into whitespace or nothing, is read back as it was. *)
Lemma convert_delimited open close sep (wrap : string → string) tokens :
  all_chars is_whitespace (strip_delimiters open) = true →
  all_chars is_whitespace (strip_delimiters close) = true →
  strip_delimiters sep ≠ "" →
  all_chars is_whitespace (strip_delimiters sep) = true →
  (∀ t, all_chars plain_char t = true → strip_delimiters (wrap t) = t) →
  Forall (λ t, plain_token t = true) tokens →
  _convert_string_to_list (open +:+ Py.join sep (wrap <$> tokens) +:+ close)
  = tokens.
Proof.
  intros Hopen Hclose Hsep Hsepw Hwrap Hl.
  rewrite convert_string_to_list_eq, !strip_delimiters_app,
    strip_delimiters_join, <- list_fmap_compose.
  assert (strip_delimiters ∘ wrap <$> tokens = tokens) as ->.
  { rewrite <- (list_fmap_id tokens) at 2. apply list_fmap_ext.
    intros _ t Ht%list_elem_of_lookup_2. cbn. apply Hwrap.
    eapply Forall_forall in Hl; [|exact Ht].
    by apply plain_token_word in Hl as (_ & _ & ?). }
  by apply str_split_words.
Qed.

Lemma convert_joined (sep : string) tokens :
  strip_delimiters sep ≠ "" →
  all_chars is_whitespace (strip_delimiters sep) = true →
  Forall (λ t, plain_token t = true) tokens →
  _convert_string_to_list (Py.join sep tokens) = tokens.
Proof.
  intros Hsep Hsepw Hl.
  pose proof (convert_delimited "" "" sep id tokens) as H.
  rewrite list_fmap_id, append_nil_r in H.
  apply H; try done. apply strip_delimiters_plain.
Qed.

Lemma convert_bracketed tokens :
  Forall (λ t, plain_token t = true) tokens →
  _convert_string_to_list ("[" +:+ Py.join ", " tokens +:+ "]") = tokens.
Proof.
  intros Hl.
  pose proof (convert_delimited "[" "]" ", " id tokens) as H.
  rewrite list_fmap_id in H.
  apply H; try done. apply strip_delimiters_plain.
Qed.

Lemma convert_repr tokens :
  Forall (λ t, plain_token t = true) tokens →
  _convert_string_to_list (repr_list tokens) = tokens.
Proof.
  intros Hl. unfold repr_list.
  apply (convert_delimited "[" "]" ", " repr_str); try done.
  intros t Ht. unfold repr_str.
  rewrite !strip_delimiters_app, (strip_delimiters_plain t) by done.
  change (strip_delimiters "'") with "". by rewrite append_nil_r.
Qed.



(** *** The detectors of the script *)

Lemma script_setter_tokens (l tokens : list string) :
  match l with
  | [s] => Ok (_convert_string_to_list s)
  | _ => Ok l
  end = Ok tokens →
  GenerateInterferometerList_detectors_setter (PyList l)
  = Ok (upper <$> Py.sort tokens).
Proof.
  intros Hl. unfold GenerateInterferometerList_detectors_setter.
  by rewrite Hl.
Qed.

Lemma plain_token_single t :
  plain_token t = true → _convert_string_to_list t = [t].
Proof.
  intros Ht. apply (convert_joined " " [t]); try done. by constructor.
Qed.

Lemma script_setter_token_list tokens :
  Forall (λ t, plain_token t = true) tokens →
  GenerateInterferometerList_detectors_setter (PyList tokens)
  = Ok (upper <$> Py.sort tokens).
Proof.
  intros Hl. apply script_setter_tokens.
  destruct tokens as [|t [|t' l]]; try done.
  f_equal. apply plain_token_single. by apply Forall_cons in Hl as [? _].
Qed.

(** The script normalises its detectors to the same list whichever way
    they are written: as separate tokens in any order, or as one string
    that separates them by spaces or by commas, or lists them in
    brackets, with or without quotes. The list is that of the tokens,
    sorted and then uppercased. The tokens are ASCII. *)
Theorem script_detectors_any_form (tokens tokens' : list string) :
  Forall (λ t, plain_token t = true) tokens →
  Forall (λ t, is_ascii t = true) tokens →
  tokens ≡ₚ tokens' →
  GenerateInterferometerList_detectors_setter (PyList tokens')
    = Ok (upper <$> Py.sort tokens)
  ∧ GenerateInterferometerList_detectors_setter
      (PyList [Py.join " " tokens]) = Ok (upper <$> Py.sort tokens)
  ∧ GenerateInterferometerList_detectors_setter
      (PyList [Py.join "," tokens]) = Ok (upper <$> Py.sort tokens)
  ∧ GenerateInterferometerList_detectors_setter
      (PyList ["[" +:+ Py.join ", " tokens +:+ "]"])
    = Ok (upper <$> Py.sort tokens)
  ∧ GenerateInterferometerList_detectors_setter
      (PyList [repr_list tokens]) = Ok (upper <$> Py.sort tokens).
Proof.
  intros Hl _ Hperm. split.
  { rewrite (sort_of_perm _ _ Hperm). apply script_setter_token_list.
    by rewrite <- Hperm. }
  repeat split; apply script_setter_tokens; f_equal.
  - by apply convert_joined.
  - by apply convert_joined.
  - by apply convert_bracketed.
  - by apply convert_repr.
Qed.

(** The witness: the form of the ini file and the form of the command
    line. *)
Lemma script_detectors_any_form_witness :
  GenerateInterferometerList_detectors_setter (PyList ["[l1, H1]"])
  = GenerateInterferometerList_detectors_setter (PyList ["H1"; "l1"]).
Proof.
  destruct (script_detectors_any_form ["l1"; "H1"] ["H1"; "l1"]
    ltac:(repeat constructor) ltac:(repeat constructor)
    ltac:(apply perm_swap))
    as (Htokens & _ & _ & Hbracket & _).
  exact (eq_trans Hbracket (eq_sym Htokens)).
Defined.

Lemma sort_sorted_id l : Sorted String.le l → Py.sort l = l.
Proof.
  intros Hl. apply (Sorted_unique String.le);
    [apply sort_sorted|done|apply sort_perm].
Qed.

Lemma known_plain_token d :
  d ∈ Input_known_detectors → plain_token d = true.
Proof.
  unfold Input_known_detectors. rewrite !elem_of_cons, elem_of_nil.
  intros [->|[->|[->|[]]]]; reflexivity.
Qed.

Lemma fmap_upper_known l :
  Forall (λ d, d ∈ Input_known_detectors) l → upper <$> l = l.
Proof.
  intros Hl. rewrite <- (list_fmap_id l) at 2. apply list_fmap_ext.
  intros _ d Hd%list_elem_of_lookup_2. cbn. apply upper_known.
  by eapply Forall_forall in Hl.
Qed.

(** The script and the [Input] agree on the detectors of every leaf job.
    For an [Input] whose detectors are known detectors in sorted order,
    the detector list of each entry of [jobs_inputs], which the leaf job
    passes as one [--detectors] argument each, is returned unchanged by
    the detectors setter of the script, and by the [include_detectors]
    setter of the [Input] as well. *)
Theorem script_reads_the_detectors_of_the_job
    (i : Input) (samplers : list string) (job : job_input.t) :
  Forall (λ d, d ∈ Input_known_detectors) (_include_detectors i) →
  Sorted String.le (_include_detectors i) →
  iter (sampler i) = Ok samplers →
  (∃ jobs_inputs, Dag_jobs_inputs i = Ok jobs_inputs ∧ job ∈ jobs_inputs) →
  GenerateInterferometerList_detectors_setter
    (PyList (job_input.detectors job)) = Ok (job_input.detectors job)
  ∧ Input_include_detectors_setter Input_known_detectors
      (PyList (job_input.detectors job)) = Ok (job_input.detectors job).
Proof.
  intros Hknown Hsorted Hs (l & Hl & Hjob).
  rewrite (jobs_inputs_eq _ _ Hs) in Hl. injection Hl as <-.
  apply expansion_elem in Hjob.
  pose proof (detector_subsets_known _ _ Hknown Hjob) as Hsub.
  assert (Sorted String.le (job_input.detectors job)) as Hsub_sorted.
  { unfold detector_subsets in Hjob. apply elem_of_cons in Hjob as [->|Hjob];
      [done|].
    destruct (coherence_test i); [|by apply elem_of_nil in Hjob].
    apply list_elem_of_fmap in Hjob as (d & -> & _).
    repeat constructor. }
  split.
  - assert (Forall (λ t, plain_token t = true) (job_input.detectors job))
      as Hplain.
    { eapply Forall_impl; [exact Hsub|]. apply known_plain_token. }
    rewrite (script_setter_token_list _ Hplain).
    by rewrite sort_sorted_id, fmap_upper_known.
  - by rewrite setter_of_known, sort_sorted_id.
Qed.

(** The witness: the singleton job of [L1] of the fixture of the test. *)
Lemma script_reads_the_detectors_of_the_job_witness :
  GenerateInterferometerList_detectors_setter (PyList ["L1"]) = Ok ["L1"].
Proof.
  assert (Forall (λ d, d ∈ Input_known_detectors) ["H1"; "L1"]) as Hknown
    by compute_done.
  assert (Sorted String.le ["H1"; "L1"]) as Hsorted
    by (repeat constructor).
  assert (job_spec ["L1"] "nestle"
          ∈ [job_spec ["H1"; "L1"] "nestle"; job_spec ["H1"] "nestle";
             job_spec ["L1"] "nestle"]) as Hjob
    by (do 2 right; left).
  exact (proj1 (script_reads_the_detectors_of_the_job
    (test_inputs ["H1"; "L1"] true (PyList ["nestle"])
       (Some (Some "/tests/X509.txt")))
    ["nestle"] (job_spec ["L1"] "nestle")
    Hknown Hsorted eq_refl (ex_intro _ _ (conj eq_refl Hjob)))).
Defined.
